(** * AutoVisits: headless search with optional Tor identity rotation

    A shallow embedding of [Main.py].  The script is a linear sequence of
    library calls (argparse, stem, Playwright); what it adds is control flow:
    which calls are made, in which order, under which exception handlers.
    The embedding therefore keeps the libraries abstract (a [World] that
    answers every call with a value or an exception) and models the script
    itself as a computation that produces the trace of the calls it made
    together with its own outcome. *)

From Stdlib Require Import List String Ascii ZArith Lia Bool Arith DecimalString.
Import ListNotations.
Open Scope string_scope.
Open Scope list_scope.

(** ** Python values and exceptions *)

Module Py.

(** The exception classes the script can meet.  All of them derive from
    [Exception]; [PlaywrightTimeoutError] is the class imported at line 26. *)
Inductive exn : Type :=
| PlaywrightTimeoutError (msg : string)
| RuntimeError (msg : string)
| ZeroDivisionError (msg : string)
| IndexError (msg : string)
| OtherException (msg : string).

(** [str(e)] *)
Definition str_exn (e : exn) : string :=
  match e with
  | PlaywrightTimeoutError m | RuntimeError m | ZeroDivisionError m
  | IndexError m | OtherException m => m
  end.

(** [isinstance(e, PlaywrightTimeoutError)] *)
Definition is_PlaywrightTimeoutError (e : exn) : bool :=
  match e with PlaywrightTimeoutError _ => true | _ => false end.

(** [isinstance(e, Exception)] *)
Definition is_Exception (e : exn) : bool := true.

(** What a call gives back: a value, or a raised exception. *)
Inductive result (A : Type) : Type :=
| Ok (a : A)
| Raise (e : exn).
Arguments Ok {A} a.
Arguments Raise {A} e.

Definition returns {A} (r : result A) : bool :=
  match r with Ok _ => true | Raise _ => false end.

(** Truthiness of an [Optional[str]]: [None] and the empty string are falsy. *)
Definition truthy_str (s : option string) : bool :=
  match s with
  | None => false
  | Some EmptyString => false
  | Some _ => true
  end.

(** The string held by a truthy [Optional[str]]. *)
Definition the_str (s : option string) : string :=
  match s with Some x => x | None => EmptyString end.

(** [str(n)] for an [int]. *)
Definition str_int (z : Z) : string := NilZero.string_of_int (Z.to_int z).

(** [str(x)] for an [Optional[str]]. *)
Definition str_opt (s : option string) : string :=
  match s with None => "None" | Some x => x end.

(** [range(n)]: empty when [n <= 0]. *)
Definition range (n : Z) : list nat := seq 0 (Z.to_nat n).

(** [[x] * n]: empty when [n <= 0]. *)
Definition list_mul {A} (x : A) (n : Z) : list A := repeat x (Z.to_nat n).

Definition newline : string := String (ascii_of_nat 10) EmptyString.

End Py.
Export Py.

(** ** Handles of the external objects *)

Inductive Controller := TorController.
Inductive Playwright := PlaywrightDriver.
Inductive Browser := BrowserHandle (id : nat).
Inductive BrowserContext := ContextHandle (id : nat).
Inductive Page := PageHandle (id : nat).
Inductive ElementHandle := Element (id : nat).

(** ** Library calls and traces *)

Inductive call : Type :=
| print (s : string)
| time_sleep (seconds : Z)
| Controller_from_port (port : Z)
| Controller_authenticate (c : Controller) (password : string)
| Controller_signal_NEWNYM (c : Controller)
| Controller_close (c : Controller)
| sync_playwright_enter
| sync_playwright_exit (p : Playwright)
| chromium_launch (p : Playwright) (headless : bool) (proxy_server : option string)
| Browser_new_context (b : Browser)
| Context_close (c : BrowserContext)
| Browser_close (b : Browser)
| Context_new_page (c : BrowserContext)
| Page_goto (pg : Page) (url : string) (timeout_ms : Z)
| Page_query_selector (pg : Page) (selector : string)
| Element_click (el : ElementHandle)
| Page_fill (pg : Page) (selector value : string)
| Page_press (pg : Page) (selector key : string)
| Page_wait_for_selector (pg : Page) (selector : string) (timeout_ms : Z).

(** An event is a call together with how it ended. *)
Inductive event : Type :=
| Called (c : call)
| Failed (c : call) (e : exn).

Definition trace := list event.

Definition call_of (ev : event) : call :=
  match ev with Called c | Failed c _ => c end.

(** ** The monad of the script: a trace and an outcome *)

Definition M (A : Type) : Type := (trace * result A)%type.

Definition ret {A} (a : A) : M A := ([], Ok a).

Definition raise {A} (e : exn) : M A := ([], Raise e).

Definition bind {A B} (m : M A) (k : A -> M B) : M B :=
  match m with
  | (t1, Ok a) => let (t2, r) := k a in (t1 ++ t2, r)
  | (t1, Raise e) => (t1, Raise e)
  end.

Declare Scope py_scope.
Delimit Scope py_scope with py.
Notation "x <- m ;; k" := (bind m (fun x => k))
  (at level 100, m at next level, right associativity) : py_scope.
Notation "m ;; k" := (bind m (fun _ => k))
  (at level 100, right associativity) : py_scope.
Open Scope py_scope.

Definition events {A} (m : M A) : trace := fst m.
Definition outcome {A} (m : M A) : result A := snd m.

(** One library call, answered by the environment with [r]. *)
Definition do_call {A} (c : call) (r : result A) : M A :=
  match r with
  | Ok a => ([Called c], Ok a)
  | Raise e => ([Failed c e], Raise e)
  end.

(** [print] and [time.sleep] always return. *)
Definition py_print (s : string) : M unit := do_call (print s) (Ok tt).
Definition py_sleep (seconds : Z) : M unit := do_call (time_sleep seconds) (Ok tt).

(** [try: body / except C as e: handler e], where [catches e] is
    [isinstance(e, C)]. *)
Definition try_except {A} (body : M A) (catches : exn -> bool)
    (handler : exn -> M A) : M A :=
  match body with
  | (t, Ok a) => (t, Ok a)
  | (t, Raise e) =>
      if catches e then let (t2, r) := handler e in (t ++ t2, r)
      else (t, Raise e)
  end.

(** [try: body / finally: cleanup].  The cleanup always runs; when it raises,
    its exception replaces the outcome of the body. *)
Definition try_finally {A} (body : M A) (cleanup : M unit) : M A :=
  let (t1, r1) := body in
  match cleanup with
  | (t2, Ok _) => (t1 ++ t2, r1)
  | (t2, Raise e2) => (t1 ++ t2, Raise e2)
  end.

(** [for x in xs: body x] *)
Fixpoint for_each {A} (xs : list A) (body : A -> M unit) : M unit :=
  match xs with
  | [] => ret tt
  | x :: rest => body x ;; for_each rest body
  end.

(** [a % b] on non-negative operands. *)
Definition py_mod (a b : nat) : M nat :=
  if Nat.eqb b 0 then raise (ZeroDivisionError "integer modulo by zero")
  else ret (a mod b).

(** [xs[i]] for a non-negative index. *)
Definition py_getitem {A} (xs : list A) (i : nat) : M A :=
  match nth_error xs i with
  | Some x => ret x
  | None => raise (IndexError "list index out of range")
  end.

(** ** The environment *)

(** Everything outside the script: the interpreter's environment, the Tor
    control port and the browser.  [launch] and [signal] are called once per
    iteration on the same object, so they are also given the index of the
    iteration; the other answers depend on the handle the call is made on. *)
Record World : Type := {
  stem_imported : bool;
  getenv : string -> option string;
  from_port : Z -> result Controller;
  authenticate : Controller -> string -> result unit;
  signal : nat -> Controller -> result unit;
  controller_close : Controller -> result unit;
  playwright_enter : result Playwright;
  playwright_exit : Playwright -> result unit;
  launch : nat -> Playwright -> option string -> result Browser;
  new_context : Browser -> result BrowserContext;
  context_close : BrowserContext -> result unit;
  browser_close : Browser -> result unit;
  new_page : BrowserContext -> result Page;
  goto : Page -> string -> Z -> result unit;
  matching : Page -> string -> result (list ElementHandle);
  click : ElementHandle -> result unit;
  fill : Page -> string -> string -> result unit;
  press : Page -> string -> string -> result unit;
  wait_for_selector : Page -> string -> Z -> result unit
}.

(** The parsed command line ([args] at line 109). *)
Record Args : Type := {
  query : string;
  iterations : Z;
  proxy_list : list string;
  tor : bool
}.

(** ** The script *)

Section Script.

Variable w : World.

(** [{"server": proxy} if proxy else None] (line 45): the server the browser
    is told to use, if any. *)
Definition proxy_server (proxy : option string) : option string :=
  if truthy_str proxy then proxy else None.

(** [new_browser] (lines 40-52), a generator-based context manager used as
    [with new_browser(p, proxy) as ctx: body].  The code before [yield] runs on
    entry; the body runs at the [yield], inside the [try]; the [finally] block
    runs on exit, whether the body returned or raised, and the exception of
    the body then propagates.  [n] tells the environment which launch this is
    (the source has no such parameter). *)
Definition new_browser {A} (n : nat) (playwright : Playwright)
    (proxy : option string) (body : BrowserContext -> M A) : M A :=
  let server := proxy_server proxy in
  browser <- do_call (chromium_launch playwright true server)
                     (launch w n playwright server) ;;
  context <- do_call (Browser_new_context browser) (new_context w browser) ;;
  try_finally
    (body context)
    (do_call (Context_close context) (context_close w context) ;;
     do_call (Browser_close browser) (browser_close w browser)).

(** [page.query_selector(selector)]: the first element that matches, in
    document order, or [None]. *)
Definition query_selector (page : Page) (selector : string)
    : M (option ElementHandle) :=
  do_call (Page_query_selector page selector)
    (match matching w page selector with
     | Ok els => Ok (hd_error els)
     | Raise e => Raise e
     end).

(** The consent banner of lines 62-68: reject the cookies when the button is
    there; a timeout is ignored. *)
Definition dismiss_consent (page : Page) : M unit :=
  try_except
    (consent <- query_selector page "button[aria-label='Reject all']" ;;
     match consent with
     | Some el => do_call (Element_click el) (click w el)
     | None => ret tt
     end)
    is_PlaywrightTimeoutError
    (fun _ => ret tt).

(** [run_search] (lines 55-83). *)
Definition run_search (context : BrowserContext) (query : string) : M unit :=
  page <- do_call (Context_new_page context) (new_page w context) ;;
  do_call (Page_goto page "https://www.google.com" 45000%Z)
          (goto w page "https://www.google.com" 45000%Z) ;;
  dismiss_consent page ;;
  do_call (Page_fill page "input[name='q']" query)
          (fill w page "input[name='q']" query) ;;
  do_call (Page_press page "input[name='q']" "Enter")
          (press w page "input[name='q']" "Enter") ;;
  do_call (Page_wait_for_selector page "h3" 20000%Z)
          (wait_for_selector w page "h3" 20000%Z) ;;
  first_result <- query_selector page "h3" ;;
  match first_result with
  | Some el => do_call (Element_click el) (click w el)
  | None => py_print "[Warn] No search results found – skipping click."
  end ;;
  py_sleep 3%Z.

(** [with sync_playwright() as p: body] (line 138). *)
Definition with_sync_playwright {A} (body : Playwright -> M A) : M A :=
  p <- do_call sync_playwright_enter (playwright_enter w) ;;
  try_finally (body p)
              (do_call (sync_playwright_exit p) (playwright_exit w p)).

(** The Tor branch of [main] (lines 112-128): the value of [controller]. *)
Definition open_controller (args : Args) : M (option Controller) :=
  if tor args then
    if negb (stem_imported w) then
      raise (RuntimeError
        "Missing 'stem' library – install with `pip install stem` or remove --tor")
    else
      let tor_pass := getenv w "TOR_CONTROL_PASSWD" in
      if negb (truthy_str tor_pass) then
        raise (RuntimeError "Environment variable TOR_CONTROL_PASSWD is not set")
      else
        try_except
          (controller <- do_call (Controller_from_port 9051%Z) (from_port w 9051%Z) ;;
           do_call (Controller_authenticate controller (the_str tor_pass))
                   (authenticate w controller (the_str tor_pass)) ;;
           py_print "✔ Tor control port authenticated" ;;
           ret (Some controller))
          is_Exception
          (fun e => raise (RuntimeError
             ("Could not authenticate to Tor control port: " ++ str_exn e)%string))
  else ret None.

(** [proxies] (lines 131-135). *)
Definition build_proxies (args : Args) : list (option string) :=
  if tor args then list_mul (Some "socks5://127.0.0.1:9050") (iterations args)
  else match proxy_list args with
       | [] => [None]
       | _ :: _ => map Some (proxy_list args)
       end.

(** [proxies[i % len(proxies)]] (line 140). *)
Definition select_proxy (proxies : list (option string)) (i : nat)
    : M (option string) :=
  j <- py_mod i (List.length proxies) ;;
  py_getitem proxies j.

(** The header printed at line 151. *)
Definition banner (args : Args) (i : nat) (proxy : option string) : string :=
  (newline ++ "--- Iteration " ++ str_int (Z.of_nat i + 1) ++ "/"
   ++ str_int (iterations args) ++ " (proxy = " ++ str_opt proxy ++ ") ---")%string.

(** The circuit renewal of lines 143-149. *)
Definition renew (controller : option Controller) (i : nat) : M unit :=
  match controller with
  | Some c =>
      try_except
        (do_call (Controller_signal_NEWNYM c) (signal w i c) ;;
         py_print "✔ NEWNYM signal sent – waiting 5 s for new circuit …" ;;
         py_sleep 5%Z)
        is_Exception
        (fun e => py_print ("[Error] NEWNYM failed: " ++ str_exn e)%string)
  | None => ret tt
  end.

(** The guarded browser session of lines 152-156. *)
Definition session (args : Args) (p : Playwright) (i : nat)
    (proxy : option string) : M unit :=
  try_except
    (new_browser i p proxy (fun ctx => run_search ctx (query args)))
    is_PlaywrightTimeoutError
    (fun e => py_print
       ("[Error] Timeout while interacting with Google: " ++ str_exn e)%string).

(** The body of the loop (lines 140-156). *)
Definition iteration (args : Args) (controller : option Controller)
    (proxies : list (option string)) (p : Playwright) (i : nat) : M unit :=
  proxy <- select_proxy proxies i ;;
  renew controller i ;;
  py_print (banner args i proxy) ;;
  session args p i proxy.

(** The clean-up of lines 159-161. *)
Definition clean_up (controller : option Controller) : M unit :=
  match controller with
  | Some c =>
      do_call (Controller_close c) (controller_close w c) ;;
      py_print "✔ Tor controller closed"
  | None => ret tt
  end.

(** [main] (lines 90-161), from the parsed arguments on. *)
Definition main (args : Args) : M unit :=
  controller <- open_controller args ;;
  let proxies := build_proxies args in
  with_sync_playwright (fun p =>
    for_each (range (iterations args))
             (iteration args controller proxies p)) ;;
  clean_up controller.

End Script.

(** ** Observations on runs *)

(** The selection the loop makes at iteration [i], as a value. *)
Definition proxy_at (args : Args) (i : nat) : option string :=
  let proxies := build_proxies args in
  nth (i mod List.length proxies) proxies None.

(** The selections of a whole run, one per planned iteration. *)
Definition plan (args : Args) : list (result (option string)) :=
  map (fun i => outcome (select_proxy (build_proxies args) i))
      (range (iterations args)).

(** The loop of line 139 over the indices [ixs]. *)
Definition loop (w : World) (args : Args) (controller : option Controller)
    (p : Playwright) (ixs : list nat) : M unit :=
  for_each ixs (iteration w args controller (build_proxies args) p).

(** The [with] block of lines 138-156. *)
Definition playwright_block (w : World) (args : Args)
    (controller : option Controller) : M unit :=
  with_sync_playwright w (fun p => loop w args controller p (range (iterations args))).

(** Iteration [k] of the run begins: the controller phase gave [controller],
    Playwright started as [p], and the iterations before [k] all ended
    without an uncaught exception. *)
Definition reaches (w : World) (args : Args) (controller : option Controller)
    (p : Playwright) (k : nat) : Prop :=
  outcome (open_controller w args) = Ok controller /\
  playwright_enter w = Ok p /\
  (Z.of_nat k < iterations args)%Z /\
  outcome (loop w args controller p (seq 0 k)) = Ok tt.

(** The ways in which the control channel fails to open. *)
Definition open_fails (w : World) : Prop :=
  stem_imported w = false \/
  truthy_str (getenv w "TOR_CONTROL_PASSWD") = false \/
  (exists e, from_port w 9051%Z = Raise e) \/
  (exists c e, from_port w 9051%Z = Ok c /\
     authenticate w c (the_str (getenv w "TOR_CONTROL_PASSWD")) = Raise e).

(** The Search Task of iteration [k] propagates a timeout with message [m]:
    its browser session was acquired, [run_search] raised the timeout, and the
    session is released without a further error. *)
Definition search_times_out (w : World) (args : Args) (p : Playwright)
    (k : nat) (m : string) : Prop :=
  exists b ctx,
    launch w k p (proxy_server (proxy_at args k)) = Ok b /\
    new_context w b = Ok ctx /\
    outcome (run_search w ctx (query args)) = Raise (PlaywrightTimeoutError m) /\
    context_close w ctx = Ok tt /\
    browser_close w b = Ok tt.

(** What a call does to the set of live browser contexts.  Only a call that
    returned changes it: a [new_context()] that raised created nothing, and a
    [context.close()] that raised leaves its context live. *)
Inductive context_action : Type := Opens | Closes | Neutral.

Definition context_action_of (ev : event) : context_action :=
  match ev with
  | Called (Browser_new_context _) => Opens
  | Called (Context_close _) => Closes
  | _ => Neutral
  end.

(** Reads a trace from a state in which a context is live or not: a context
    may only be created when none is live, and released when one is.  The
    result is the state at the end, or [None] when the trace breaks the
    rule. *)
Fixpoint lifetimes (live : bool) (t : trace) : option bool :=
  match t with
  | [] => Some live
  | ev :: rest =>
      match context_action_of ev, live with
      | Opens, false => lifetimes true rest
      | Closes, true => lifetimes false rest
      | Neutral, _ => lifetimes live rest
      | _, _ => None
      end
  end.

(** A computation that leaves no context live when it starts with none. *)
Definition balanced {A} (m : M A) : Prop :=
  lifetimes false (events m) = Some false.

(** What [run_search] does once the query is submitted (lines 74-83). *)
Definition open_first_result (w : World) (page : Page) : M unit :=
  do_call (Page_wait_for_selector page "h3" 20000%Z)
          (wait_for_selector w page "h3" 20000%Z) ;;
  first_result <- query_selector w page "h3" ;;
  match first_result with
  | Some el => do_call (Element_click el) (click w el)
  | None => py_print "[Warn] No search results found – skipping click."
  end ;;
  py_sleep 3%Z.

(** The events of [run_search] up to the submission of the query, when every
    call up to there returns. *)
Definition submission_events (w : World) (ctx : BrowserContext) (pg : Page)
    (q : string) : trace :=
  [Called (Context_new_page ctx);
   Called (Page_goto pg "https://www.google.com" 45000%Z)]
  ++ events (dismiss_consent w pg)
  ++ [Called (Page_fill pg "input[name='q']" q);
      Called (Page_press pg "input[name='q']" "Enter")].

(** The line printed when a timeout is caught, if the session ended so. *)
Definition timeout_note (r : result unit) : trace :=
  match r with
  | Raise (PlaywrightTimeoutError m) =>
      [Called (print ("[Error] Timeout while interacting with Google: " ++ m)%string)]
  | _ => []
  end.

(** The events of iteration [i] of a run without Tor and without proxies, in
    an environment that hands out browser [b] and context [c]. *)
Definition direct_iteration_events (w : World) (args : Args) (p : Playwright)
    (b : Browser) (c : BrowserContext) (i : nat) : trace :=
  [Called (print (banner args i None));
   Called (chromium_launch p true None);
   Called (Browser_new_context b)]
  ++ events (run_search w c (query args))
  ++ [Called (Context_close c); Called (Browser_close b)]
  ++ timeout_note (outcome (run_search w c (query args))).

(** Every session of the run is acquired and released without error, with
    browser [b i] and context [c i] at iteration [i], and its Search Task
    returns or times out. *)
Definition sessions_return_or_time_out (w : World) (args : Args) (p : Playwright)
    (b : nat -> Browser) (c : nat -> BrowserContext) : Prop :=
  forall i, (Z.of_nat i < iterations args)%Z ->
    launch w i p (proxy_server (proxy_at args i)) = Ok (b i) /\
    new_context w (b i) = Ok (c i) /\
    context_close w (c i) = Ok tt /\
    browser_close w (b i) = Ok tt /\
    (outcome (run_search w (c i) (query args)) = Ok tt \/
     exists m, outcome (run_search w (c i) (query args))
               = Raise (PlaywrightTimeoutError m)).

(** Classes of calls. *)
Definition is_launch (c : call) : bool :=
  match c with chromium_launch _ _ _ => true | _ => false end.

Definition is_new_page (c : call) : bool :=
  match c with Context_new_page _ => true | _ => false end.

Definition is_controller_close (c : call) : bool :=
  match c with Controller_close _ => true | _ => false end.

Definition is_open_call (c : call) : bool :=
  match c with
  | Controller_from_port _ | Controller_authenticate _ _ => true
  | _ => false
  end.

(** Calls to Playwright and the browser: everything but the console, the
    clock and the control channel. *)
Definition is_browser_call (c : call) : bool :=
  match c with
  | print _ | time_sleep _ | Controller_from_port _ | Controller_authenticate _ _
  | Controller_signal_NEWNYM _ | Controller_close _ => false
  | _ => true
  end.

(** The proxy servers of the launches of a trace, in order. *)
Definition launch_servers (t : trace) : list (option string) :=
  flat_map (fun ev => match call_of ev with
                      | chromium_launch _ _ server => [server]
                      | _ => []
                      end) t.

Definition count_calls (f : call -> bool) (t : trace) : nat :=
  List.length (filter (fun ev => f (call_of ev)) t).

(** Every call of the trace is in the class [f]. *)
Definition all_calls (f : call -> bool) (t : trace) : Prop :=
  Forall (fun ev => f (call_of ev) = true) t.

(** No call of the trace is in the class [f]. *)
Definition no_calls (f : call -> bool) (t : trace) : Prop :=
  Forall (fun ev => f (call_of ev) = false) t.

(** ** Further observations *)

Definition is_from_port (c : call) : bool :=
  match c with Controller_from_port _ => true | _ => false end.

Definition is_authenticate (c : call) : bool :=
  match c with Controller_authenticate _ _ => true | _ => false end.

Definition is_signal (c : call) : bool :=
  match c with Controller_signal_NEWNYM _ => true | _ => false end.

(** Calls on the Tor control channel. *)
Definition is_control_call (c : call) : bool :=
  match c with
  | Controller_from_port _ | Controller_authenticate _ _
  | Controller_signal_NEWNYM _ | Controller_close _ => true
  | _ => false
  end.

Definition is_playwright_exit (c : call) : bool :=
  match c with sync_playwright_exit _ => true | _ => false end.

Definition is_context_close (c : call) : bool :=
  match c with Context_close _ => true | _ => false end.

Definition is_browser_close (c : call) : bool :=
  match c with Browser_close _ => true | _ => false end.

(** The calls [run_search] makes. *)
Definition is_search_call (c : call) : bool :=
  match c with
  | Context_new_page _ | Page_goto _ _ _ | Page_query_selector _ _
  | Element_click _ | Page_fill _ _ _ | Page_press _ _ _
  | Page_wait_for_selector _ _ _ | print _ | time_sleep _ => true
  | _ => false
  end.

(** The calls an iteration of the loop makes. *)
Definition is_iteration_call (c : call) : bool :=
  match c with
  | Controller_signal_NEWNYM _ | chromium_launch _ _ _ | Browser_new_context _
  | Context_close _ | Browser_close _ => true
  | _ => is_search_call c
  end.

(** The script gets as far as connecting to the control port: [--tor] is
    given, stem is installed and the password is set (lines 112-119). *)
Definition open_attempted (w : World) (args : Args) : bool :=
  tor args && stem_imported w && truthy_str (getenv w "TOR_CONTROL_PASSWD").

(** The arguments the script passes to the calls whose arguments it fixes. *)
Definition fixed_arguments (args : Args) (c : call) : Prop :=
  match c with
  | Controller_from_port port => port = 9051%Z
  | chromium_launch _ headless _ => headless = true
  | Page_goto _ url timeout_ms =>
      url = "https://www.google.com" /\ timeout_ms = 45000%Z
  | Page_query_selector _ selector =>
      selector = "button[aria-label='Reject all']" \/ selector = "h3"
  | Page_fill _ selector value => selector = "input[name='q']" /\ value = query args
  | Page_press _ selector key => selector = "input[name='q']" /\ key = "Enter"
  | Page_wait_for_selector _ selector timeout_ms =>
      selector = "h3" /\ timeout_ms = 20000%Z
  | time_sleep seconds => seconds = 3%Z \/ seconds = 5%Z
  | _ => True
  end.

(** A computation that raises makes no call after the one that failed. *)
Definition fails_last {A} (m : M A) : Prop :=
  forall e, outcome m = Raise e ->
    exists pre c, events m = pre ++ [Failed c e].

(** A computation that returns has [ev] as its last event. *)
Definition returns_last {A} (ev : event) (m : M A) : Prop :=
  forall a, outcome m = Ok a -> exists pre, events m = pre ++ [ev].

(** The elements the two queries of [run_search] give: the first match of the
    consent button and the first result heading. *)
Definition first_matches (w : World) (pg : Page) : list ElementHandle :=
  match matching w pg "button[aria-label='Reject all']" with
  | Ok (el :: _) => [el]
  | _ => []
  end ++
  match matching w pg "h3" with
  | Ok (el :: _) => [el]
  | _ => []
  end.

(** The elements clicked in a trace, in order. *)
Definition clicked (t : trace) : list ElementHandle :=
  flat_map (fun ev => match call_of ev with
                      | Element_click el => [el]
                      | _ => []
                      end) t.

(** ** Sample environments *)

Module Samples.

(** An environment in which every call returns: fresh handles numbered by
    iteration, and two result headings on every results page. *)
Definition calm : World := {|
  stem_imported := true;
  getenv := fun name =>
    if String.eqb name "TOR_CONTROL_PASSWD" then Some "secret" else None;
  from_port := fun _ => Ok TorController;
  authenticate := fun _ _ => Ok tt;
  signal := fun _ _ => Ok tt;
  controller_close := fun _ => Ok tt;
  playwright_enter := Ok PlaywrightDriver;
  playwright_exit := fun _ => Ok tt;
  launch := fun n _ _ => Ok (BrowserHandle n);
  new_context := fun b => match b with BrowserHandle n => Ok (ContextHandle n) end;
  context_close := fun _ => Ok tt;
  browser_close := fun _ => Ok tt;
  new_page := fun c => match c with ContextHandle n => Ok (PageHandle n) end;
  goto := fun _ _ _ => Ok tt;
  matching := fun _ sel =>
    if String.eqb sel "h3" then Ok [Element 1; Element 2] else Ok [];
  click := fun _ => Ok tt;
  fill := fun _ _ _ => Ok tt;
  press := fun _ _ _ => Ok tt;
  wait_for_selector := fun _ _ _ => Ok tt
|}.

(** [calm] with some answers replaced. *)
Definition with_getenv (f : string -> option string) (w : World) : World :=
  {| stem_imported := stem_imported w; getenv := f;
     from_port := from_port w; authenticate := authenticate w;
     signal := signal w; controller_close := controller_close w;
     playwright_enter := playwright_enter w; playwright_exit := playwright_exit w;
     launch := launch w; new_context := new_context w;
     context_close := context_close w; browser_close := browser_close w;
     new_page := new_page w; goto := goto w; matching := matching w;
     click := click w; fill := fill w; press := press w;
     wait_for_selector := wait_for_selector w |}.

Definition with_signal (f : nat -> Controller -> result unit) (w : World) : World :=
  {| stem_imported := stem_imported w; getenv := getenv w;
     from_port := from_port w; authenticate := authenticate w;
     signal := f; controller_close := controller_close w;
     playwright_enter := playwright_enter w; playwright_exit := playwright_exit w;
     launch := launch w; new_context := new_context w;
     context_close := context_close w; browser_close := browser_close w;
     new_page := new_page w; goto := goto w; matching := matching w;
     click := click w; fill := fill w; press := press w;
     wait_for_selector := wait_for_selector w |}.

Definition with_goto (f : Page -> string -> Z -> result unit) (w : World) : World :=
  {| stem_imported := stem_imported w; getenv := getenv w;
     from_port := from_port w; authenticate := authenticate w;
     signal := signal w; controller_close := controller_close w;
     playwright_enter := playwright_enter w; playwright_exit := playwright_exit w;
     launch := launch w; new_context := new_context w;
     context_close := context_close w; browser_close := browser_close w;
     new_page := new_page w; goto := f; matching := matching w;
     click := click w; fill := fill w; press := press w;
     wait_for_selector := wait_for_selector w |}.

Definition with_results
    (wait : Page -> string -> Z -> result unit)
    (found : Page -> string -> result (list ElementHandle)) (w : World) : World :=
  {| stem_imported := stem_imported w; getenv := getenv w;
     from_port := from_port w; authenticate := authenticate w;
     signal := signal w; controller_close := controller_close w;
     playwright_enter := playwright_enter w; playwright_exit := playwright_exit w;
     launch := launch w; new_context := new_context w;
     context_close := context_close w; browser_close := browser_close w;
     new_page := new_page w; goto := goto w; matching := found;
     click := click w; fill := fill w; press := press w;
     wait_for_selector := wait |}.

(** No result heading shows up within the 20 s. *)
Definition results_never_appear : World :=
  with_results (fun _ _ _ => Raise (PlaywrightTimeoutError "Timeout 20000ms exceeded."))
               (fun _ _ => Ok []) calm.

(** The wait returns, but the page has no heading left when it is queried. *)
Definition headings_gone : World :=
  with_results (fun _ _ _ => Ok tt) (fun _ _ => Ok []) calm.

(** [TOR_CONTROL_PASSWD] is not set. *)
Definition no_password : World := with_getenv (fun _ => None) calm.

(** The first renewal signal is refused. *)
Definition renewal_refused : World :=
  with_signal (fun i _ => match i with
                          | 0 => Raise (OtherException "Unable to send NEWNYM")
                          | _ => Ok tt
                          end) calm.

(** The first page load times out. *)
Definition slow_start : World :=
  with_goto (fun pg _ _ => match pg with
                           | PageHandle 0 =>
                               Raise (PlaywrightTimeoutError "Timeout 45000ms exceeded.")
                           | _ => Ok tt
                           end) calm.

(** The first page load fails with an error that is not a timeout. *)
Definition proxy_down : World :=
  with_goto (fun pg _ _ => match pg with
                           | PageHandle 0 =>
                               Raise (OtherException "net::ERR_PROXY_CONNECTION_FAILED")
                           | _ => Ok tt
                           end) calm.

Definition with_browser
    (l : nat -> Playwright -> option string -> result Browser)
    (nc : Browser -> result BrowserContext)
    (cc : BrowserContext -> result unit) (w : World) : World :=
  {| stem_imported := stem_imported w; getenv := getenv w;
     from_port := from_port w; authenticate := authenticate w;
     signal := signal w; controller_close := controller_close w;
     playwright_enter := playwright_enter w; playwright_exit := playwright_exit w;
     launch := l; new_context := nc;
     context_close := cc; browser_close := browser_close w;
     new_page := new_page w; goto := goto w; matching := matching w;
     click := click w; fill := fill w; press := press w;
     wait_for_selector := wait_for_selector w |}.

Definition with_click (f : ElementHandle -> result unit) (w : World) : World :=
  {| stem_imported := stem_imported w; getenv := getenv w;
     from_port := from_port w; authenticate := authenticate w;
     signal := signal w; controller_close := controller_close w;
     playwright_enter := playwright_enter w; playwright_exit := playwright_exit w;
     launch := launch w; new_context := new_context w;
     context_close := context_close w; browser_close := browser_close w;
     new_page := new_page w; goto := goto w; matching := matching w;
     click := f; fill := fill w; press := press w;
     wait_for_selector := wait_for_selector w |}.

(** Chromium cannot be started. *)
Definition no_chromium : World :=
  with_browser (fun _ _ _ => Raise (OtherException "Executable doesn't exist"))
               (new_context calm) (context_close calm) calm.

(** The browser starts but refuses to open a context. *)
Definition context_refused : World :=
  with_browser (launch calm) (fun _ => Raise (OtherException "Target closed"))
               (context_close calm) calm.

(** Contexts cannot be closed. *)
Definition close_refused : World :=
  with_browser (launch calm) (new_context calm)
               (fun _ => Raise (OtherException "Target closed")) calm.

(** Closing the context of the first iteration times out. *)
Definition close_times_out : World :=
  with_browser (launch calm) (new_context calm)
               (fun c => match c with
                         | ContextHandle 0 =>
                             Raise (PlaywrightTimeoutError "Timeout 30000ms exceeded.")
                         | _ => Ok tt
                         end) calm.

(** Looking for the consent button times out. *)
Definition consent_times_out : World :=
  with_results (wait_for_selector calm)
    (fun _ sel => if String.eqb sel "h3" then Ok [Element 1]
                  else Raise (PlaywrightTimeoutError "Timeout 30000ms exceeded."))
    calm.

(** The consent button is there, but clicking it fails. *)
Definition consent_detached : World :=
  with_click (fun el => match el with
                        | Element 9 => Raise (OtherException "Element is not attached")
                        | _ => Ok tt
                        end)
    (with_results (wait_for_selector calm)
       (fun _ sel => if String.eqb sel "h3" then Ok [Element 1] else Ok [Element 9])
       calm).

Definition args_test : Args :=
  {| query := "test"; iterations := 3; proxy_list := []; tor := false |}.

Definition args_tor : Args :=
  {| query := "openai gpt-4o"; iterations := 2; proxy_list := []; tor := true |}.

Definition args_AB : Args :=
  {| query := "test"; iterations := 5; proxy_list := ["A"; "B"]; tor := false |}.

End Samples.

(** * Properties *)

(** ** The monad *)

Lemma bind_unfold {A B} (m : M A) (k : A -> M B) :
  bind m k =
  match outcome m with
  | Ok a => (events m ++ events (k a), outcome (k a))
  | Raise e => (events m, Raise e)
  end.
Proof.
  destruct m as [t [a | e]]; cbn; [destruct (k a); reflexivity | reflexivity].
Qed.

Lemma bind_ok {A B} (m : M A) (k : A -> M B) a :
  outcome m = Ok a ->
  bind m k = (events m ++ events (k a), outcome (k a)).
Proof. intros H. rewrite bind_unfold, H. reflexivity. Qed.

Lemma bind_raise {A B} (m : M A) (k : A -> M B) e :
  outcome m = Raise e -> bind m k = (events m, Raise e).
Proof. intros H. rewrite bind_unfold, H. reflexivity. Qed.

Lemma bind_ret {A B} (a : A) (k : A -> M B) : bind (ret a) k = k a.
Proof. unfold bind, ret. destruct (k a); reflexivity. Qed.

Lemma bind_assoc {A B C} (m : M A) (k : A -> M B) (h : B -> M C) :
  bind (bind m k) h = bind m (fun a => bind (k a) h).
Proof.
  destruct m as [t [a | e]]; cbn; [ | reflexivity].
  destruct (k a) as [t2 [b | e2]]; cbn; [ | reflexivity].
  destruct (h b); cbn. now rewrite app_assoc.
Qed.

Lemma events_bind_prefix {A B} (m : M A) (k : A -> M B) :
  exists rest, events (bind m k) = events m ++ rest.
Proof.
  rewrite bind_unfold. destruct (outcome m); cbn; eauto.
  exists []. now rewrite app_nil_r.
Qed.

Lemma try_except_unfold {A} (body : M A) catches handler :
  try_except body catches handler =
  match outcome body with
  | Ok a => body
  | Raise e =>
      if catches e
      then (events body ++ events (handler e), outcome (handler e))
      else body
  end.
Proof.
  destruct body as [t [a | e]]; cbn; [reflexivity | ].
  destruct (catches e); [destruct (handler e) | ]; reflexivity.
Qed.

Lemma try_finally_unfold {A} (body : M A) (cleanup : M unit) :
  try_finally body cleanup =
  (events body ++ events cleanup,
   match outcome cleanup with
   | Ok _ => outcome body
   | Raise e => Raise e
   end).
Proof.
  destruct body as [t r], cleanup as [t2 [u | e]]; reflexivity.
Qed.

Lemma for_each_app {A} (xs ys : list A) (body : A -> M unit) :
  for_each (xs ++ ys) body = (for_each xs body ;; for_each ys body).
Proof.
  induction xs as [ | x xs IH]; cbn [for_each app].
  - now rewrite bind_ret.
  - now rewrite IH, bind_assoc.
Qed.

Lemma do_call_events {A} c (r : result A) :
  events (do_call c r) =
  [match r with Ok _ => Called c | Raise e => Failed c e end].
Proof. destruct r; reflexivity. Qed.

Lemma do_call_outcome {A} c (r : result A) : outcome (do_call c r) = r.
Proof. destruct r; reflexivity. Qed.

(** ** Proxy selection (lines 130-140) *)

Lemma select_proxy_nonempty (proxies : list (option string)) (i : nat) :
  proxies <> [] ->
  select_proxy proxies i = ret (nth (i mod List.length proxies) proxies None).
Proof.
  intros Hne. unfold select_proxy, py_mod.
  assert (Hlen : List.length proxies <> 0) by (destruct proxies; cbn; congruence).
  destruct (Nat.eqb_spec (List.length proxies) 0) as [E | _]; [contradiction | ].
  rewrite bind_ret. unfold py_getitem.
  rewrite (nth_error_nth' proxies None); [reflexivity | ].
  now apply Nat.mod_upper_bound.
Qed.

Lemma build_proxies_nonempty (args : Args) (i : nat) :
  (Z.of_nat i < iterations args)%Z -> build_proxies args <> [].
Proof.
  intros Hi. unfold build_proxies, list_mul.
  destruct (tor args).
  - destruct (Z.to_nat (iterations args)) eqn:E; [lia | discriminate].
  - destruct (proxy_list args); discriminate.
Qed.

Lemma select_proxy_at (args : Args) (i : nat) :
  (Z.of_nat i < iterations args)%Z ->
  select_proxy (build_proxies args) i = ret (proxy_at args i).
Proof.
  intros Hi. unfold proxy_at. apply select_proxy_nonempty.
  now apply build_proxies_nonempty with i.
Qed.

Lemma proxy_at_list (args : Args) (i : nat) :
  tor args = false -> proxy_list args <> [] ->
  proxy_at args i =
  nth_error (proxy_list args) (i mod List.length (proxy_list args)).
Proof.
  intros Ht Hne. unfold proxy_at, build_proxies. rewrite Ht.
  destruct (proxy_list args) as [ | u us] eqn:E; [congruence | ].
  rewrite <- E. rewrite length_map.
  assert (Hlt : i mod List.length (proxy_list args) < List.length (proxy_list args)).
  { apply Nat.mod_upper_bound. rewrite E. discriminate. }
  rewrite (nth_error_nth' _ EmptyString Hlt).
  rewrite <- (map_nth Some). apply nth_indep. now rewrite length_map.
Qed.

Lemma proxy_at_tor (args : Args) (i : nat) :
  tor args = true -> (Z.of_nat i < iterations args)%Z ->
  proxy_at args i = Some "socks5://127.0.0.1:9050".
Proof.
  intros Ht Hi. unfold proxy_at, build_proxies, list_mul. rewrite Ht.
  rewrite repeat_length.
  assert (Hlt : i mod Z.to_nat (iterations args) < Z.to_nat (iterations args))
    by (apply Nat.mod_upper_bound; lia).
  apply nth_error_nth. now apply nth_error_repeat.
Qed.

Lemma proxy_at_direct (args : Args) (i : nat) :
  tor args = false -> proxy_list args = [] -> proxy_at args i = None.
Proof.
  intros Ht Hl. unfold proxy_at, build_proxies. rewrite Ht, Hl. cbn.
  now destruct (i mod 1) as [ | [ | ? ] ].
Qed.

Lemma plan_eq (args : Args) :
  plan args = map (fun i => Ok (proxy_at args i)) (range (iterations args)).
Proof.
  unfold plan. apply map_ext_in. intros i Hi.
  unfold range in Hi. apply in_seq in Hi.
  rewrite select_proxy_at by lia. reflexivity.
Qed.

(** The same selections, seen at the launches of a run. *)
Example launches_cycle_through_the_list :
  launch_servers (events (main Samples.calm Samples.args_AB)) =
  [Some "A"; Some "B"; Some "A"; Some "B"; Some "A"].
Proof. reflexivity. Qed.

(** An empty proxy URL is selected like any other, and launches the browser
    without a proxy server (line 45). *)
Example empty_url_launches_directly :
  plan {| query := "q"; iterations := 1; proxy_list := [EmptyString]; tor := false |}
    = [Ok (Some EmptyString)] /\
  launch_servers
    (events (main Samples.calm
       {| query := "q"; iterations := 1; proxy_list := [EmptyString]; tor := false |}))
    = [None].
Proof. split; reflexivity. Qed.

(** ** Properties of all the events of a computation *)

Section EventInvariants.

Variable P : event -> Prop.

Lemma inv_ret {A} (a : A) : Forall P (events (ret a)).
Proof. constructor. Qed.

Lemma inv_raise {A} e : Forall P (events (@raise A e)).
Proof. constructor. Qed.

Lemma inv_do_call {A} c (r : result A) :
  P (Called c) -> (forall e, P (Failed c e)) -> Forall P (events (do_call c r)).
Proof. intros H1 H2. destruct r; cbn; auto. Qed.

Lemma inv_bind {A B} (m : M A) (k : A -> M B) :
  Forall P (events m) ->
  (forall a, outcome m = Ok a -> Forall P (events (k a))) ->
  Forall P (events (bind m k)).
Proof.
  intros Hm Hk. rewrite bind_unfold.
  destruct (outcome m) as [a | e] eqn:E; cbn; [ | assumption].
  apply Forall_app; auto.
Qed.

Lemma inv_try_except {A} (body : M A) catches handler :
  Forall P (events body) ->
  (forall e, outcome body = Raise e -> Forall P (events (handler e))) ->
  Forall P (events (try_except body catches handler)).
Proof.
  intros Hb Hh. rewrite try_except_unfold.
  destruct (outcome body) as [a | e] eqn:E; [assumption | ].
  destruct (catches e); [ | assumption].
  cbn. apply Forall_app; auto.
Qed.

Lemma inv_try_finally {A} (body : M A) cleanup :
  Forall P (events body) -> Forall P (events cleanup) ->
  Forall P (events (try_finally body cleanup)).
Proof.
  intros Hb Hc. rewrite try_finally_unfold. cbn. apply Forall_app; auto.
Qed.

Lemma inv_for_each {A} (xs : list A) (body : A -> M unit) :
  (forall x, In x xs -> Forall P (events (body x))) ->
  Forall P (events (for_each xs body)).
Proof.
  induction xs as [ | x xs IH]; intros H; cbn [for_each].
  - apply inv_ret.
  - apply inv_bind; [apply H; now left | intros _ _].
    apply IH. intros y Hy. apply H. now right.
Qed.

End EventInvariants.

(** Splits a goal about all the events of a computation along its syntax. *)
Ltac inv_step :=
  first
    [ apply inv_ret
    | apply inv_raise
    | apply inv_do_call; [ | intros ? ]
    | apply inv_bind; [ | intros ? ? ]
    | apply inv_try_except; [ | intros ? ? ]
    | apply inv_try_finally
    | apply inv_for_each; intros ? ?
    | progress cbv zeta
    | match goal with
      | |- Forall _ (events (match ?x with _ => _ end)) => destruct x
      end ].

Ltac inv_all := repeat inv_step; try reflexivity.

Lemma count_calls_app f (t1 t2 : trace) :
  count_calls f (t1 ++ t2) = count_calls f t1 + count_calls f t2.
Proof. unfold count_calls. now rewrite filter_app, length_app. Qed.

Lemma no_calls_count f (t : trace) : no_calls f t -> count_calls f t = 0.
Proof.
  unfold no_calls, count_calls. induction 1 as [ | ev t Hev _ IH]; cbn.
  - reflexivity.
  - now rewrite Hev.
Qed.

Lemma all_calls_no_calls (f g : call -> bool) (t : trace) :
  (forall c, f c = true -> g c = false) -> all_calls f t -> no_calls g t.
Proof. intros H. unfold all_calls, no_calls. apply Forall_impl. auto. Qed.

(** ** The shape of [main] *)

Lemma main_unfold (w : World) (args : Args) :
  main w args =
  (controller <- open_controller w args ;;
   playwright_block w args controller ;;
   clean_up w controller).
Proof. reflexivity. Qed.

Lemma main_open_fails (w : World) (args : Args) e :
  outcome (open_controller w args) = Raise e ->
  main w args = (events (open_controller w args), Raise e).
Proof. intros H. rewrite main_unfold. now apply bind_raise. Qed.

(** ** Opening the control channel (lines 112-128) *)

Lemma open_controller_fails (w : World) (args : Args) :
  tor args = true -> open_fails w ->
  exists msg,
    outcome (open_controller w args) = Raise (RuntimeError msg) /\
    all_calls is_open_call (events (open_controller w args)).
Proof.
  intros Ht Hf. unfold open_controller. rewrite Ht.
  destruct (stem_imported w) eqn:Es; cbn [negb].
  2:{ eexists. split; [reflexivity | constructor]. }
  destruct (truthy_str (getenv w "TOR_CONTROL_PASSWD")) eqn:Ep; cbn [negb].
  2:{ eexists. split; [reflexivity | constructor]. }
  destruct (from_port w 9051%Z) as [c | e] eqn:Ef.
  2:{ cbn. eexists. split; [reflexivity | repeat constructor]. }
  destruct (authenticate w c (the_str (getenv w "TOR_CONTROL_PASSWD")))
    as [u | e] eqn:Ea.
  2:{ cbn. rewrite Ea. cbn. eexists. split; [reflexivity | repeat constructor]. }
  exfalso. destruct Hf as [H | [H | [[e H] | (c' & e & H1 & H2)]]]; try congruence.
Qed.

(** C4.  With [--tor], when the control channel cannot be opened (stem is not
    installed, [TOR_CONTROL_PASSWD] is unset or empty, connecting fails, or
    authenticating fails) [main] ends with a [RuntimeError], and the only
    calls it has made are those to the control port: Playwright is never
    started, no browser is launched, no iteration begins. *)
Theorem C4_open_failure_aborts_before_browser_work (w : World) (args : Args) :
  tor args = true ->
  open_fails w ->
  exists msg,
    outcome (main w args) = Raise (RuntimeError msg) /\
    all_calls is_open_call (events (main w args)) /\
    no_calls is_browser_call (events (main w args)) /\
    count_calls is_launch (events (main w args)) = 0.
Proof.
  intros Ht Hf.
  destruct (open_controller_fails w args Ht Hf) as (msg & Ho & Hc).
  exists msg. rewrite (main_open_fails _ _ _ Ho). cbn [events outcome fst snd].
  split; [reflexivity | ]. split; [assumption | ]. split.
  - revert Hc. apply all_calls_no_calls. now intros [].
  - apply no_calls_count. revert Hc. apply all_calls_no_calls. now intros [].
Qed.

Lemma C4_open_failure_aborts_before_browser_work_witness :
  exists msg,
    outcome (main Samples.no_password Samples.args_tor) = Raise (RuntimeError msg) /\
    all_calls is_open_call (events (main Samples.no_password Samples.args_tor)) /\
    no_calls is_browser_call (events (main Samples.no_password Samples.args_tor)) /\
    count_calls is_launch (events (main Samples.no_password Samples.args_tor)) = 0.
Proof.
  apply C4_open_failure_aborts_before_browser_work;
    [reflexivity | right; left; reflexivity].
Defined.

(** ** One iteration (lines 140-156) *)

Lemma renew_outcome (w : World) controller i : outcome (renew w controller i) = Ok tt.
Proof.
  unfold renew. destruct controller as [c | ]; [ | reflexivity].
  rewrite try_except_unfold.
  destruct (signal w i c) as [[] | e]; reflexivity.
Qed.

Lemma renew_refused (w : World) c i e :
  signal w i c = Raise e ->
  events (renew w (Some c) i) =
  [Failed (Controller_signal_NEWNYM c) e;
   Called (print ("[Error] NEWNYM failed: " ++ str_exn e)%string)].
Proof. intros H. unfold renew. cbn. rewrite H. reflexivity. Qed.

Lemma iteration_unfold (w : World) (args : Args) controller p i :
  (Z.of_nat i < iterations args)%Z ->
  iteration w args controller (build_proxies args) p i =
  (events (renew w controller i)
     ++ [Called (print (banner args i (proxy_at args i)))]
     ++ events (session w args p i (proxy_at args i)),
   outcome (session w args p i (proxy_at args i))).
Proof.
  intros Hi. unfold iteration. rewrite select_proxy_at by assumption.
  rewrite bind_ret.
  rewrite (bind_ok _ _ tt) by apply renew_outcome.
  cbn [events outcome fst snd].
  unfold py_print at 1. cbn [do_call bind].
  destruct (session w args p i (proxy_at args i)); reflexivity.
Qed.

Lemma new_browser_unfold {A} (w : World) n p proxy (body : BrowserContext -> M A) b ctx :
  launch w n p (proxy_server proxy) = Ok b ->
  new_context w b = Ok ctx ->
  new_browser w n p proxy body =
  ([Called (chromium_launch p true (proxy_server proxy));
    Called (Browser_new_context b)]
     ++ events (body ctx)
     ++ events (do_call (Context_close ctx) (context_close w ctx) ;;
                do_call (Browser_close b) (browser_close w b)),
   match outcome (do_call (Context_close ctx) (context_close w ctx) ;;
                  do_call (Browser_close b) (browser_close w b)) with
   | Ok _ => outcome (body ctx)
   | Raise e => Raise e
   end).
Proof.
  intros Hl Hc. unfold new_browser. cbv zeta. rewrite Hl. cbn [do_call].
  rewrite (bind_ok _ _ b) by reflexivity. rewrite Hc. cbn [do_call].
  rewrite (bind_ok _ _ ctx) by reflexivity.
  rewrite try_finally_unfold. reflexivity.
Qed.

Lemma new_browser_starts_with_launch {A} (w : World) n p proxy
    (body : BrowserContext -> M A) :
  exists ev rest,
    events (new_browser w n p proxy body) = ev :: rest /\
    call_of ev = chromium_launch p true (proxy_server proxy).
Proof.
  unfold new_browser. cbv zeta.
  destruct (events_bind_prefix
              (do_call (chromium_launch p true (proxy_server proxy))
                       (launch w n p (proxy_server proxy)))
              (fun browser =>
                 context <- do_call (Browser_new_context browser)
                                    (new_context w browser) ;;
                 try_finally (body context)
                   (do_call (Context_close context) (context_close w context) ;;
                    do_call (Browser_close browser) (browser_close w browser))))
    as [rest Hrest].
  rewrite Hrest, do_call_events. cbn [app].
  eexists _, _. split; [reflexivity | ].
  now destruct (launch w n p (proxy_server proxy)).
Qed.

Lemma try_except_events_prefix {A} (body : M A) catches handler :
  exists rest, events (try_except body catches handler) = events body ++ rest.
Proof.
  rewrite try_except_unfold.
  destruct (outcome body) as [a | e]; [exists []; now rewrite app_nil_r | ].
  destruct (catches e); cbn; [eauto | exists []; now rewrite app_nil_r].
Qed.

Lemma session_starts_with_launch (w : World) (args : Args) p i proxy :
  exists ev rest,
    events (session w args p i proxy) = ev :: rest /\
    call_of ev = chromium_launch p true (proxy_server proxy).
Proof.
  unfold session.
  destruct (try_except_events_prefix
              (new_browser w i p proxy (fun ctx => run_search w ctx (query args)))
              is_PlaywrightTimeoutError
              (fun e => py_print
                 ("[Error] Timeout while interacting with Google: " ++ str_exn e)%string))
    as [rest Hrest].
  destruct (new_browser_starts_with_launch w i p proxy
              (fun ctx => run_search w ctx (query args))) as (ev & rest' & He & Hc).
  rewrite Hrest, He. cbn [app]. eauto.
Qed.

Lemma session_timeout (w : World) (args : Args) p i proxy m :
  outcome (new_browser w i p proxy (fun ctx => run_search w ctx (query args)))
  = Raise (PlaywrightTimeoutError m) ->
  session w args p i proxy =
  (events (new_browser w i p proxy (fun ctx => run_search w ctx (query args)))
     ++ [Called (print ("[Error] Timeout while interacting with Google: " ++ m)%string)],
   Ok tt).
Proof.
  intros H. unfold session. rewrite try_except_unfold, H. reflexivity.
Qed.

(** ** The loop (line 139) *)

Lemma loop_app (w : World) (args : Args) controller p xs ys :
  loop w args controller p (xs ++ ys) =
  (loop w args controller p xs ;; loop w args controller p ys).
Proof. apply for_each_app. Qed.

Lemma loop_cons (w : World) (args : Args) controller p x xs :
  loop w args controller p (x :: xs) =
  (iteration w args controller (build_proxies args) p x ;;
   loop w args controller p xs).
Proof. reflexivity. Qed.

Lemma range_split (n : Z) (k : nat) :
  (Z.of_nat k < n)%Z ->
  range n = seq 0 k ++ k :: seq (S k) (Z.to_nat n - S k).
Proof.
  intros Hk. unfold range.
  replace (Z.to_nat n) with (k + S (Z.to_nat n - S k)) at 1 by lia.
  rewrite seq_app. reflexivity.
Qed.

(** The events of the loop up to and including iteration [k], when the
    iterations before [k] have returned. *)
Lemma loop_reaches (w : World) (args : Args) controller p k :
  (Z.of_nat k < iterations args)%Z ->
  outcome (loop w args controller p (seq 0 k)) = Ok tt ->
  exists post,
    events (loop w args controller p (range (iterations args))) =
    events (loop w args controller p (seq 0 k))
      ++ events (iteration w args controller (build_proxies args) p k) ++ post /\
    (forall e, outcome (iteration w args controller (build_proxies args) p k) = Raise e ->
       outcome (loop w args controller p (range (iterations args))) = Raise e).
Proof.
  intros Hk Hok. rewrite (range_split _ _ Hk), loop_app.
  rewrite (bind_ok _ _ tt) by assumption. cbn [events outcome fst snd].
  rewrite loop_cons, bind_unfold.
  destruct (outcome (iteration w args controller (build_proxies args) p k))
    as [[] | e]; cbn [events outcome fst snd].
  - eexists. split; [reflexivity | discriminate].
  - exists []. split; [now rewrite app_nil_r | congruence].
Qed.

Lemma loop_snoc (w : World) (args : Args) controller p k :
  outcome (loop w args controller p (seq 0 k)) = Ok tt ->
  loop w args controller p (seq 0 (S k)) =
  (events (loop w args controller p (seq 0 k))
     ++ events (iteration w args controller (build_proxies args) p k),
   outcome (iteration w args controller (build_proxies args) p k)).
Proof.
  intros Hok. rewrite seq_S, loop_app. cbn [Nat.add].
  rewrite (bind_ok _ _ tt) by assumption. cbn [events outcome fst snd].
  unfold loop at 2 3. cbn [for_each].
  rewrite bind_unfold.
  destruct (outcome (iteration w args controller (build_proxies args) p k))
    as [[] | e]; cbn; [now rewrite app_nil_r | reflexivity].
Qed.

Lemma reaches_next (w : World) (args : Args) controller p k :
  reaches w args controller p k ->
  (Z.of_nat (S k) < iterations args)%Z ->
  outcome (iteration w args controller (build_proxies args) p k) = Ok tt ->
  reaches w args controller p (S k).
Proof.
  intros (Ho & Hp & Hk & Hl) HSk Hit. repeat split; try assumption.
  rewrite loop_snoc by assumption. exact Hit.
Qed.

Lemma block_unfold (w : World) (args : Args) controller p :
  playwright_enter w = Ok p ->
  playwright_block w args controller =
  ([Called sync_playwright_enter]
     ++ events (loop w args controller p (range (iterations args)))
     ++ events (do_call (sync_playwright_exit p) (playwright_exit w p)),
   match playwright_exit w p with
   | Ok _ => outcome (loop w args controller p (range (iterations args)))
   | Raise e => Raise e
   end).
Proof.
  intros Hp. unfold playwright_block, with_sync_playwright.
  rewrite Hp. cbn [do_call]. rewrite (bind_ok _ _ p) by reflexivity.
  rewrite try_finally_unfold, do_call_outcome. reflexivity.
Qed.

(** The events of [main] up to and including iteration [k]. *)
Lemma main_reaches (w : World) (args : Args) controller p k :
  reaches w args controller p k ->
  exists post,
    events (main w args) =
    (events (open_controller w args) ++ [Called sync_playwright_enter]
       ++ events (loop w args controller p (seq 0 k)))
      ++ events (iteration w args controller (build_proxies args) p k) ++ post.
Proof.
  intros (Ho & Hp & Hk & Hl).
  destruct (loop_reaches w args controller p k Hk Hl) as (post & Hev & _).
  rewrite main_unfold, (bind_ok _ _ controller) by assumption.
  cbn [events outcome fst snd].
  destruct (events_bind_prefix (playwright_block w args controller)
              (fun _ => clean_up w controller)) as [rest Hrest].
  rewrite Hrest, (block_unfold _ _ _ _ Hp). cbn [events fst].
  rewrite Hev. eexists. rewrite <- !app_assoc. cbn [app]. reflexivity.
Qed.

(** ** Timeouts and refused renewals do not stop the run *)

Lemma session_of_timed_out_search (w : World) (args : Args) p k m :
  search_times_out w args p k m ->
  exists t,
    session w args p k (proxy_at args k) =
    (t ++ [Called (print ("[Error] Timeout while interacting with Google: " ++ m)%string)],
     Ok tt).
Proof.
  intros (b & ctx & Hl & Hc & Hs & Hcc & Hbc).
  eexists. apply session_timeout.
  rewrite (new_browser_unfold w k p _ _ b ctx Hl Hc).
  cbn [outcome snd]. rewrite Hcc, Hbc. cbn. exact Hs.
Qed.

(** C5.  When the Search Task of iteration [k] propagates a timeout and [k]
    is not the last iteration, the timeout is caught and logged, the
    iteration ends normally, and the events of iteration [k+1] follow the
    log line in the trace of the run. *)
Theorem C5_timeout_does_not_abort_the_run
    (w : World) (args : Args) controller p (k : nat) (m : string) :
  reaches w args controller p k ->
  (Z.of_nat k < iterations args - 1)%Z ->
  search_times_out w args p k m ->
  outcome (iteration w args controller (build_proxies args) p k) = Ok tt /\
  reaches w args controller p (S k) /\
  In (Called (print (banner args (S k) (proxy_at args (S k)))))
     (events (iteration w args controller (build_proxies args) p (S k))) /\
  exists pre post,
    events (main w args) =
    pre
      ++ [Called (print ("[Error] Timeout while interacting with Google: " ++ m)%string)]
      ++ events (iteration w args controller (build_proxies args) p (S k))
      ++ post.
Proof.
  intros Hr HSk Hto.
  assert (Hk : (Z.of_nat k < iterations args)%Z) by lia.
  assert (HSk' : (Z.of_nat (S k) < iterations args)%Z) by lia.
  destruct (session_of_timed_out_search w args p k m Hto) as [t Ht].
  assert (Hit : iteration w args controller (build_proxies args) p k =
                (events (renew w controller k)
                   ++ [Called (print (banner args k (proxy_at args k)))]
                   ++ t
                   ++ [Called (print ("[Error] Timeout while interacting with Google: "
                                      ++ m)%string)],
                 Ok tt)).
  { rewrite iteration_unfold by assumption. now rewrite Ht. }
  assert (Hok : outcome (iteration w args controller (build_proxies args) p k) = Ok tt)
    by now rewrite Hit.
  pose proof (reaches_next _ _ _ _ _ Hr HSk' Hok) as Hnext.
  split; [assumption | ]. split; [assumption | ]. split.
  - rewrite iteration_unfold by assumption. cbn [events fst].
    apply in_or_app. right. now left.
  - destruct (main_reaches _ _ _ _ _ Hnext) as [post Hmain].
    destruct Hr as (_ & _ & _ & Hl).
    rewrite (loop_snoc _ _ _ _ _ Hl) in Hmain. cbn [events fst] in Hmain.
    rewrite Hit in Hmain at 1. cbn [events fst] in Hmain.
    exists (events (open_controller w args) ++ [Called sync_playwright_enter]
              ++ events (loop w args controller p (seq 0 k))
              ++ events (renew w controller k)
              ++ [Called (print (banner args k (proxy_at args k)))] ++ t), post.
    rewrite Hmain. repeat rewrite <- app_assoc. reflexivity.
Qed.

Lemma C5_timeout_does_not_abort_the_run_witness :
  outcome (iteration Samples.slow_start Samples.args_test None
             (build_proxies Samples.args_test) PlaywrightDriver 0) = Ok tt /\
  reaches Samples.slow_start Samples.args_test None PlaywrightDriver 1 /\
  In (Called (print (banner Samples.args_test 1 (proxy_at Samples.args_test 1))))
     (events (iteration Samples.slow_start Samples.args_test None
                (build_proxies Samples.args_test) PlaywrightDriver 1)) /\
  exists pre post,
    events (main Samples.slow_start Samples.args_test) =
    pre
      ++ [Called (print ("[Error] Timeout while interacting with Google: "
                         ++ "Timeout 45000ms exceeded.")%string)]
      ++ events (iteration Samples.slow_start Samples.args_test None
                   (build_proxies Samples.args_test) PlaywrightDriver 1)
      ++ post.
Proof.
  apply C5_timeout_does_not_abort_the_run.
  - repeat split.
  - cbn; lia.
  - exists (BrowserHandle 0), (ContextHandle 0). repeat split.
Defined.

(** C6.  When the renewal signal of an iteration fails, the failure is
    logged and the same iteration goes on: the header is printed and the
    browser is launched, with the proxy that had been selected. *)
Theorem C6_renewal_failure_is_not_fatal
    (w : World) (args : Args) (c : Controller) p (i : nat) (e : exn) :
  reaches w args (Some c) p i ->
  signal w i c = Raise e ->
  exists pre acquire post,
    events (main w args) =
    pre
      ++ [Failed (Controller_signal_NEWNYM c) e;
          Called (print ("[Error] NEWNYM failed: " ++ str_exn e)%string);
          Called (print (banner args i (proxy_at args i)));
          acquire]
      ++ post /\
    call_of acquire = chromium_launch p true (proxy_server (proxy_at args i)).
Proof.
  intros Hr Hs.
  destruct (main_reaches _ _ _ _ _ Hr) as [post Hmain].
  destruct Hr as (_ & _ & Hi & _).
  rewrite iteration_unfold in Hmain by assumption. cbn [events fst] in Hmain.
  rewrite (renew_refused _ _ _ _ Hs) in Hmain.
  destruct (session_starts_with_launch w args p i (proxy_at args i))
    as (ev & rest & Hev & Hcall).
  rewrite Hev in Hmain.
  exists (events (open_controller w args) ++ [Called sync_playwright_enter]
            ++ events (loop w args (Some c) p (seq 0 i))), ev, (rest ++ post).
  split; [ | exact Hcall].
  rewrite Hmain. repeat rewrite <- app_assoc. reflexivity.
Qed.

Lemma C6_renewal_failure_is_not_fatal_witness :
  exists pre acquire post,
    events (main Samples.renewal_refused Samples.args_tor) =
    pre
      ++ [Failed (Controller_signal_NEWNYM TorController)
                 (OtherException "Unable to send NEWNYM");
          Called (print ("[Error] NEWNYM failed: "
                         ++ str_exn (OtherException "Unable to send NEWNYM"))%string);
          Called (print (banner Samples.args_tor 0 (proxy_at Samples.args_tor 0)));
          acquire]
      ++ post /\
    call_of acquire =
    chromium_launch PlaywrightDriver true
      (proxy_server (proxy_at Samples.args_tor 0)).
Proof.
  apply C6_renewal_failure_is_not_fatal.
  - repeat split.
  - reflexivity.
Defined.

(** ** Browser sessions (lines 40-52) *)

Lemma lifetimes_app (live : bool) (t1 t2 : trace) :
  lifetimes live (t1 ++ t2) =
  match lifetimes live t1 with
  | Some live' => lifetimes live' t2
  | None => None
  end.
Proof.
  revert live. induction t1 as [ | ev t1 IH]; intros live; cbn [app lifetimes].
  - reflexivity.
  - destruct (context_action_of ev), live; auto.
Qed.

Lemma lifetimes_neutral (live : bool) (t : trace) :
  Forall (fun ev => context_action_of ev = Neutral) t ->
  lifetimes live t = Some live.
Proof.
  induction 1 as [ | ev t Hev _ IH]; cbn [lifetimes].
  - reflexivity.
  - rewrite Hev. exact IH.
Qed.

Lemma neutral_balanced {A} (m : M A) :
  Forall (fun ev => context_action_of ev = Neutral) (events m) -> balanced m.
Proof. apply lifetimes_neutral. Qed.

Lemma balanced_bind {A B} (m : M A) (k : A -> M B) :
  balanced m -> (forall a, balanced (k a)) -> balanced (bind m k).
Proof.
  unfold balanced. intros Hm Hk. rewrite bind_unfold.
  destruct (outcome m) as [a | e]; cbn [events fst]; [ | assumption].
  rewrite lifetimes_app, Hm. apply Hk.
Qed.

Lemma balanced_try_except {A} (body : M A) catches handler :
  balanced body -> (forall e, balanced (handler e)) ->
  balanced (try_except body catches handler).
Proof.
  unfold balanced. intros Hb Hh. rewrite try_except_unfold.
  destruct (outcome body) as [a | e]; [assumption | ].
  destruct (catches e); [ | assumption].
  cbn [events fst]. rewrite lifetimes_app, Hb. apply Hh.
Qed.

Lemma balanced_try_finally {A} (body : M A) cleanup :
  balanced body -> balanced cleanup -> balanced (try_finally body cleanup).
Proof.
  unfold balanced. intros Hb Hc. rewrite try_finally_unfold.
  cbn [events fst]. now rewrite lifetimes_app, Hb.
Qed.

Lemma balanced_for_each {A} (xs : list A) (body : A -> M unit) :
  (forall x, balanced (body x)) -> balanced (for_each xs body).
Proof.
  intros H. induction xs as [ | x xs IH]; cbn [for_each].
  - reflexivity.
  - apply balanced_bind; auto.
Qed.

Lemma run_search_neutral (w : World) ctx q :
  Forall (fun ev => context_action_of ev = Neutral) (events (run_search w ctx q)).
Proof. unfold run_search, dismiss_consent, query_selector, py_print, py_sleep. inv_all. Qed.

Lemma renew_neutral (w : World) controller i :
  Forall (fun ev => context_action_of ev = Neutral) (events (renew w controller i)).
Proof. unfold renew, py_print, py_sleep. inv_all. Qed.

Lemma open_controller_neutral (w : World) args :
  Forall (fun ev => context_action_of ev = Neutral) (events (open_controller w args)).
Proof. unfold open_controller, py_print. inv_all. Qed.

Lemma clean_up_neutral (w : World) controller :
  Forall (fun ev => context_action_of ev = Neutral) (events (clean_up w controller)).
Proof. unfold clean_up, py_print. inv_all. Qed.

Lemma new_browser_balanced {A} (w : World) n p proxy (body : BrowserContext -> M A) :
  (forall ctx, context_close w ctx = Ok tt) ->
  (forall ctx, Forall (fun ev => context_action_of ev = Neutral) (events (body ctx))) ->
  balanced (new_browser w n p proxy body).
Proof.
  intros Hclose Hbody. unfold balanced.
  destruct (launch w n p (proxy_server proxy)) as [b | e] eqn:El.
  2:{ unfold new_browser. cbv zeta. rewrite El. reflexivity. }
  destruct (new_context w b) as [ctx | e] eqn:Ec.
  2:{ unfold new_browser. cbv zeta. rewrite El. cbn [do_call].
      rewrite (bind_ok _ _ b) by reflexivity. rewrite Ec. reflexivity. }
  rewrite (new_browser_unfold w n p proxy body b ctx El Ec).
  cbn [events fst app lifetimes context_action_of].
  rewrite lifetimes_app, (lifetimes_neutral _ _ (Hbody ctx)).
  rewrite (Hclose ctx).
  cbn [do_call]. rewrite (bind_ok _ _ tt) by reflexivity.
  cbn [events fst app lifetimes context_action_of].
  now destruct (browser_close w b).
Qed.

Lemma iteration_balanced (w : World) args controller proxies p i :
  (forall ctx, context_close w ctx = Ok tt) ->
  balanced (iteration w args controller proxies p i).
Proof.
  intros Hclose. unfold iteration. apply balanced_bind.
  { apply neutral_balanced. unfold select_proxy, py_mod, py_getitem. inv_all. }
  intros proxy. apply balanced_bind; [apply neutral_balanced, renew_neutral | intros _].
  apply balanced_bind; [reflexivity | intros _].
  unfold session. apply balanced_try_except; [ | reflexivity].
  apply new_browser_balanced; [assumption | ].
  intros ctx. apply run_search_neutral.
Qed.

Lemma main_balanced (w : World) (args : Args) :
  (forall ctx, context_close w ctx = Ok tt) ->
  balanced (main w args).
Proof.
  intros Hclose. rewrite main_unfold.
  apply balanced_bind; [apply neutral_balanced, open_controller_neutral | intros c].
  apply balanced_bind; [ | intros _; apply neutral_balanced, clean_up_neutral].
  unfold playwright_block, with_sync_playwright.
  apply balanced_bind; [now destruct (playwright_enter w) | intros p].
  apply balanced_try_finally; [ | now destruct (playwright_exit w p)].
  apply balanced_for_each. intros i. now apply iteration_balanced.
Qed.

(** X17.  What [new_browser] does guarantee.  It launches a browser and opens
    a context of its own at every call and hands that context to the body;
    when the body ends, whether it returned or raised, [context.close()] is
    called, and when that call returns [browser.close()] is called next.  In
    an environment where [context.close()] never raises, a context is only
    created when none is live: the lifetimes of the contexts of a run do not
    overlap. *)
Theorem sessions_are_scoped_when_close_returns {A}
    (w : World) (args : Args) (n : nat) (p : Playwright) (proxy : option string)
    (body : BrowserContext -> M A) (b : Browser) (ctx : BrowserContext) :
  launch w n p (proxy_server proxy) = Ok b ->
  new_context w b = Ok ctx ->
  context_close w ctx = Ok tt ->
  (exists closing,
     events (new_browser w n p proxy body) =
     [Called (chromium_launch p true (proxy_server proxy));
      Called (Browser_new_context b)]
       ++ events (body ctx)
       ++ [Called (Context_close ctx); closing] /\
     call_of closing = Browser_close b /\
     (browser_close w b = Ok tt ->
      outcome (new_browser w n p proxy body) = outcome (body ctx))) /\
  ((forall c, context_close w c = Ok tt) ->
   lifetimes false (events (main w args)) = Some false).
Proof.
  intros Hl Hc Hcc. split; [ | apply main_balanced].
  rewrite (new_browser_unfold w n p proxy body b ctx Hl Hc).
  rewrite Hcc. cbn [do_call]. rewrite (bind_ok _ _ tt) by reflexivity.
  cbn [events outcome fst snd app].
  exists (match browser_close w b with
          | Ok _ => Called (Browser_close b)
          | Raise e => Failed (Browser_close b) e
          end).
  split; [ | split].
  - now destruct (browser_close w b).
  - now destruct (browser_close w b).
  - intros Hb. now rewrite Hb.
Qed.

(** A body that raises: the session is released all the same. *)
Lemma sessions_are_scoped_when_close_returns_witness :
  (exists closing,
     events (new_browser Samples.calm 7 PlaywrightDriver (Some "socks5://10.0.0.1:1080")
               (fun _ => @raise unit (OtherException "boom"))) =
     [Called (chromium_launch PlaywrightDriver true (Some "socks5://10.0.0.1:1080"));
      Called (Browser_new_context (BrowserHandle 7))]
       ++ events (@raise unit (OtherException "boom"))
       ++ [Called (Context_close (ContextHandle 7)); closing] /\
     call_of closing = Browser_close (BrowserHandle 7) /\
     (browser_close Samples.calm (BrowserHandle 7) = Ok tt ->
      outcome (new_browser Samples.calm 7 PlaywrightDriver (Some "socks5://10.0.0.1:1080")
                 (fun _ => @raise unit (OtherException "boom")))
      = outcome (@raise unit (OtherException "boom")))) /\
  lifetimes false (events (main Samples.calm Samples.args_test)) = Some false.
Proof.
  destruct (sessions_are_scoped_when_close_returns Samples.calm Samples.args_test 7
              PlaywrightDriver (Some "socks5://10.0.0.1:1080")
              (fun _ => @raise unit (OtherException "boom"))
              (BrowserHandle 7) (ContextHandle 7)) as [Hscope Hrun];
    try reflexivity.
  split; [exact Hscope | ]. apply Hrun. intros c. reflexivity.
Defined.

(** C7.  The release that [new_browser] promises is not guaranteed.  The
    [finally] block of lines 50-52 calls [context.close()] and then
    [browser.close()]; when the first raises, the second is skipped.  Here
    [context.close()] of the first iteration times out: the session ends with
    that timeout and its browser is never closed; [main] catches the timeout
    and goes on, so the run launches three browsers, closes two, and opens
    the context of the second iteration while that of the first is still
    live. *)
Theorem C7_browser_left_open_when_context_close_raises :
  events (new_browser Samples.close_times_out 0 PlaywrightDriver None
            (fun _ => ret tt)) =
    [Called (chromium_launch PlaywrightDriver true None);
     Called (Browser_new_context (BrowserHandle 0));
     Failed (Context_close (ContextHandle 0))
            (PlaywrightTimeoutError "Timeout 30000ms exceeded.")] /\
  outcome (new_browser Samples.close_times_out 0 PlaywrightDriver None
             (fun ctx => run_search Samples.close_times_out ctx "test")) =
    Raise (PlaywrightTimeoutError "Timeout 30000ms exceeded.") /\
  count_calls is_browser_close
    (events (new_browser Samples.close_times_out 0 PlaywrightDriver None
               (fun ctx => run_search Samples.close_times_out ctx "test"))) = 0 /\
  outcome (main Samples.close_times_out Samples.args_test) = Ok tt /\
  count_calls is_launch (events (main Samples.close_times_out Samples.args_test)) = 3 /\
  count_calls is_browser_close
    (events (main Samples.close_times_out Samples.args_test)) = 2 /\
  lifetimes false (events (main Samples.close_times_out Samples.args_test)) = None.
Proof.
  repeat split.
Qed.

(** ** The search task (lines 55-83) *)

Lemma run_search_submitted (w : World) ctx q pg :
  new_page w ctx = Ok pg ->
  goto w pg "https://www.google.com" 45000%Z = Ok tt ->
  outcome (dismiss_consent w pg) = Ok tt ->
  fill w pg "input[name='q']" q = Ok tt ->
  press w pg "input[name='q']" "Enter" = Ok tt ->
  run_search w ctx q =
  (submission_events w ctx pg q ++ events (open_first_result w pg),
   outcome (open_first_result w pg)).
Proof.
  intros Hnp Hg Hd Hf Hp. unfold run_search.
  rewrite Hnp. cbn [do_call]. rewrite (bind_ok _ _ pg) by reflexivity.
  rewrite Hg. cbn [do_call]. rewrite (bind_ok _ _ tt) by reflexivity.
  rewrite (bind_ok _ _ tt) by assumption.
  rewrite Hf. cbn [do_call]. rewrite (bind_ok _ _ tt) by reflexivity.
  rewrite Hp. cbn [do_call]. rewrite (bind_ok _ _ tt) by reflexivity.
  cbn [events outcome fst snd]. unfold submission_events, open_first_result.
  repeat rewrite <- app_assoc. reflexivity.
Qed.

(** C9.  Once the query is submitted, [run_search] waits for an [h3] element
    with a timeout of 20 s; when the wait raises (a timeout, for one), nothing
    else is done and the exception is the outcome of [run_search].  Otherwise
    the page is asked for its first [h3]: when there is one it is clicked,
    when there is none a warning is printed, no click is made and
    [run_search] returns after its pause of 3 s. *)
Theorem C9_wait_then_click_first_result
    (w : World) (ctx : BrowserContext) (q : string) (pg : Page) :
  new_page w ctx = Ok pg ->
  goto w pg "https://www.google.com" 45000%Z = Ok tt ->
  outcome (dismiss_consent w pg) = Ok tt ->
  fill w pg "input[name='q']" q = Ok tt ->
  press w pg "input[name='q']" "Enter" = Ok tt ->
  (forall e,
     wait_for_selector w pg "h3" 20000%Z = Raise e ->
     run_search w ctx q =
     (submission_events w ctx pg q
        ++ [Failed (Page_wait_for_selector pg "h3" 20000%Z) e],
      Raise e)) /\
  (forall el els,
     wait_for_selector w pg "h3" 20000%Z = Ok tt ->
     matching w pg "h3" = Ok (el :: els) ->
     (exists clicking rest,
        events (run_search w ctx q) =
        submission_events w ctx pg q
          ++ [Called (Page_wait_for_selector pg "h3" 20000%Z);
              Called (Page_query_selector pg "h3");
              clicking]
          ++ rest /\
        call_of clicking = Element_click el) /\
     (click w el = Ok tt ->
      run_search w ctx q =
      (submission_events w ctx pg q
         ++ [Called (Page_wait_for_selector pg "h3" 20000%Z);
             Called (Page_query_selector pg "h3");
             Called (Element_click el);
             Called (time_sleep 3)],
       Ok tt))) /\
  (wait_for_selector w pg "h3" 20000%Z = Ok tt ->
   matching w pg "h3" = Ok [] ->
   run_search w ctx q =
   (submission_events w ctx pg q
      ++ [Called (Page_wait_for_selector pg "h3" 20000%Z);
          Called (Page_query_selector pg "h3");
          Called (print "[Warn] No search results found – skipping click.");
          Called (time_sleep 3)],
    Ok tt)).
Proof.
  intros Hnp Hg Hd Hf Hp.
  rewrite (run_search_submitted w ctx q pg Hnp Hg Hd Hf Hp).
  unfold open_first_result, query_selector.
  split; [ | split].
  - intros e He. rewrite He. reflexivity.
  - intros el els Hw Hm. rewrite Hw, Hm. cbn [do_call hd_error].
    rewrite (bind_ok _ _ tt) by reflexivity.
    rewrite (bind_ok _ _ (Some el)) by reflexivity.
    cbn [events outcome fst snd]. split.
    + destruct (click w el) as [[] | e]; cbn; eexists _, _; split; reflexivity.
    + intros Hc. rewrite Hc. reflexivity.
  - intros Hw Hm. rewrite Hw, Hm. reflexivity.
Qed.

Lemma C9_wait_then_click_first_result_witness :
  (forall e,
     wait_for_selector Samples.calm (PageHandle 0) "h3" 20000%Z = Raise e ->
     run_search Samples.calm (ContextHandle 0) "test" =
     (submission_events Samples.calm (ContextHandle 0) (PageHandle 0) "test"
        ++ [Failed (Page_wait_for_selector (PageHandle 0) "h3" 20000%Z) e],
      Raise e)) /\
  (forall el els,
     wait_for_selector Samples.calm (PageHandle 0) "h3" 20000%Z = Ok tt ->
     matching Samples.calm (PageHandle 0) "h3" = Ok (el :: els) ->
     (exists clicking rest,
        events (run_search Samples.calm (ContextHandle 0) "test") =
        submission_events Samples.calm (ContextHandle 0) (PageHandle 0) "test"
          ++ [Called (Page_wait_for_selector (PageHandle 0) "h3" 20000%Z);
              Called (Page_query_selector (PageHandle 0) "h3");
              clicking]
          ++ rest /\
        call_of clicking = Element_click el) /\
     (click Samples.calm el = Ok tt ->
      run_search Samples.calm (ContextHandle 0) "test" =
      (submission_events Samples.calm (ContextHandle 0) (PageHandle 0) "test"
         ++ [Called (Page_wait_for_selector (PageHandle 0) "h3" 20000%Z);
             Called (Page_query_selector (PageHandle 0) "h3");
             Called (Element_click el);
             Called (time_sleep 3)],
       Ok tt))) /\
  (wait_for_selector Samples.calm (PageHandle 0) "h3" 20000%Z = Ok tt ->
   matching Samples.calm (PageHandle 0) "h3" = Ok [] ->
   run_search Samples.calm (ContextHandle 0) "test" =
   (submission_events Samples.calm (ContextHandle 0) (PageHandle 0) "test"
      ++ [Called (Page_wait_for_selector (PageHandle 0) "h3" 20000%Z);
          Called (Page_query_selector (PageHandle 0) "h3");
          Called (print "[Warn] No search results found – skipping click.");
          Called (time_sleep 3)],
    Ok tt)).
Proof.
  apply C9_wait_then_click_first_result; reflexivity.
Defined.

Example search_propagates_result_timeout :
  run_search Samples.results_never_appear (ContextHandle 0) "test" =
  ([Called (Context_new_page (ContextHandle 0));
    Called (Page_goto (PageHandle 0) "https://www.google.com" 45000%Z);
    Called (Page_query_selector (PageHandle 0) "button[aria-label='Reject all']");
    Called (Page_fill (PageHandle 0) "input[name='q']" "test");
    Called (Page_press (PageHandle 0) "input[name='q']" "Enter");
    Failed (Page_wait_for_selector (PageHandle 0) "h3" 20000%Z)
           (PlaywrightTimeoutError "Timeout 20000ms exceeded.")],
   Raise (PlaywrightTimeoutError "Timeout 20000ms exceeded.")).
Proof. reflexivity. Qed.

Example search_without_heading_warns :
  run_search Samples.headings_gone (ContextHandle 0) "test" =
  ([Called (Context_new_page (ContextHandle 0));
    Called (Page_goto (PageHandle 0) "https://www.google.com" 45000%Z);
    Called (Page_query_selector (PageHandle 0) "button[aria-label='Reject all']");
    Called (Page_fill (PageHandle 0) "input[name='q']" "test");
    Called (Page_press (PageHandle 0) "input[name='q']" "Enter");
    Called (Page_wait_for_selector (PageHandle 0) "h3" 20000%Z);
    Called (Page_query_selector (PageHandle 0) "h3");
    Called (print "[Warn] No search results found – skipping click.");
    Called (time_sleep 3)],
   Ok tt).
Proof. reflexivity. Qed.

Example search_clicks_first_heading :
  run_search Samples.calm (ContextHandle 0) "test" =
  ([Called (Context_new_page (ContextHandle 0));
    Called (Page_goto (PageHandle 0) "https://www.google.com" 45000%Z);
    Called (Page_query_selector (PageHandle 0) "button[aria-label='Reject all']");
    Called (Page_fill (PageHandle 0) "input[name='q']" "test");
    Called (Page_press (PageHandle 0) "input[name='q']" "Enter");
    Called (Page_wait_for_selector (PageHandle 0) "h3" 20000%Z);
    Called (Page_query_selector (PageHandle 0) "h3");
    Called (Element_click (Element 1));
    Called (time_sleep 3)],
   Ok tt).
Proof. reflexivity. Qed.

(** ** Runs without Tor and without proxies *)

Lemma run_search_one_new_page (w : World) ctx q :
  count_calls is_new_page (events (run_search w ctx q)) = 1.
Proof.
  unfold run_search.
  destruct (new_page w ctx) as [pg | e]; [ | reflexivity].
  cbn [do_call]. rewrite (bind_ok _ _ pg) by reflexivity.
  cbn [events fst]. rewrite count_calls_app.
  change (count_calls is_new_page [Called (Context_new_page ctx)]) with 1.
  rewrite no_calls_count; [reflexivity | ].
  unfold no_calls, dismiss_consent, query_selector, py_print, py_sleep. inv_all.
Qed.

Lemma run_search_no_launch (w : World) ctx q :
  no_calls is_launch (events (run_search w ctx q)).
Proof.
  unfold no_calls, run_search, dismiss_consent, query_selector, py_print, py_sleep.
  inv_all.
Qed.

Lemma timeout_note_counts (f : call -> bool) r :
  (forall s, f (print s) = false) -> count_calls f (timeout_note r) = 0.
Proof.
  intros Hf. destruct r as [u | [m | m | m | m | m]]; try reflexivity.
  unfold timeout_note, count_calls. cbn. now rewrite Hf.
Qed.

Lemma direct_iteration_launches (w : World) args p b c i :
  count_calls is_launch (direct_iteration_events w args p b c i) = 1.
Proof.
  unfold direct_iteration_events. rewrite !count_calls_app.
  rewrite (no_calls_count _ _ (run_search_no_launch w c (query args))).
  rewrite timeout_note_counts by reflexivity. reflexivity.
Qed.

Lemma direct_iteration_new_pages (w : World) args p b c i :
  count_calls is_new_page (direct_iteration_events w args p b c i) = 1.
Proof.
  unfold direct_iteration_events. rewrite !count_calls_app.
  rewrite run_search_one_new_page.
  rewrite timeout_note_counts by reflexivity. reflexivity.
Qed.

Lemma count_calls_flat_map {X} (f : call -> bool) (g : X -> trace) (xs : list X) :
  (forall x, count_calls f (g x) = 1) ->
  count_calls f (flat_map g xs) = List.length xs.
Proof.
  intros H. induction xs as [ | x xs IH]; cbn [flat_map List.length].
  - reflexivity.
  - now rewrite count_calls_app, H, IH.
Qed.

Lemma direct_iteration (w : World) (args : Args) p b c i :
  tor args = false -> proxy_list args = [] ->
  sessions_return_or_time_out w args p b c ->
  (Z.of_nat i < iterations args)%Z ->
  iteration w args None (build_proxies args) p i =
  (direct_iteration_events w args p (b i) (c i) i, Ok tt).
Proof.
  intros Ht Hl Hw Hi.
  destruct (Hw i Hi) as (Hla & Hnc & Hcc & Hbc & Hrs).
  rewrite iteration_unfold by assumption.
  rewrite (proxy_at_direct args i Ht Hl) in *.
  unfold session.
  rewrite (new_browser_unfold w i p None _ (b i) (c i) Hla Hnc).
  rewrite Hcc, Hbc. cbn [do_call bind app events outcome fst snd renew].
  unfold direct_iteration_events.
  rewrite try_except_unfold. cbn [events outcome fst snd].
  destruct Hrs as [Hok | [m Hto]].
  - rewrite Hok. cbn [timeout_note ret events fst snd app].
    reflexivity.
  - rewrite Hto. cbn [is_PlaywrightTimeoutError timeout_note py_print do_call
                      ret events outcome fst snd str_exn proxy_server truthy_str app].
    rewrite <- ?app_assoc. reflexivity.
Qed.

Lemma direct_loop (w : World) (args : Args) p b c (xs : list nat) :
  tor args = false -> proxy_list args = [] ->
  sessions_return_or_time_out w args p b c ->
  (forall i, In i xs -> (Z.of_nat i < iterations args)%Z) ->
  loop w args None p xs =
  (flat_map (fun i => direct_iteration_events w args p (b i) (c i) i) xs, Ok tt).
Proof.
  intros Ht Hl Hw. induction xs as [ | x xs IH]; intros Hxs.
  - reflexivity.
  - rewrite loop_cons.
    rewrite (direct_iteration w args p b c x Ht Hl Hw) by (apply Hxs; now left).
    rewrite IH by (intros i Hi; apply Hxs; now right).
    reflexivity.
Qed.

(** C8.  Without [--tor] and with an empty proxy list every iteration selects
    no proxy.  In an environment where every session is acquired and released
    and every search returns or times out, the run is then: Playwright starts;
    for each iteration in turn the header, one launch with no proxy server,
    one context, one [run_search] with the query of the command line, the
    release of the context and of the browser; Playwright stops.  With
    [iterations = 3] that makes three launches and three searches. *)
Theorem C8_direct_connection_without_tor_and_proxies (args : Args) :
  tor args = false ->
  proxy_list args = [] ->
  (forall i, select_proxy (build_proxies args) i = ret None) /\
  (forall w p b c,
     playwright_enter w = Ok p ->
     sessions_return_or_time_out w args p b c ->
     events (main w args) =
     [Called sync_playwright_enter]
       ++ flat_map (fun i => direct_iteration_events w args p (b i) (c i) i)
                   (range (iterations args))
       ++ events (do_call (sync_playwright_exit p) (playwright_exit w p)) /\
     count_calls is_launch (events (main w args)) = Z.to_nat (iterations args) /\
     count_calls is_new_page (events (main w args)) = Z.to_nat (iterations args)).
Proof.
  intros Ht Hl. split.
  - intros i. rewrite select_proxy_nonempty.
    + unfold build_proxies. rewrite Ht, Hl. cbn.
      now destruct (i mod 1) as [ | [ | ? ] ].
    + unfold build_proxies. rewrite Ht, Hl. discriminate.
  - intros w p b c Hp Hw.
    assert (Hmain : events (main w args) =
                    [Called sync_playwright_enter]
                      ++ flat_map (fun i => direct_iteration_events w args p (b i) (c i) i)
                                  (range (iterations args))
                      ++ events (do_call (sync_playwright_exit p) (playwright_exit w p))).
    { rewrite main_unfold. unfold open_controller. rewrite Ht. rewrite bind_ret.
      unfold clean_up.
      destruct (events_bind_prefix (playwright_block w args None)
                  (fun _ => ret tt)) as [rest Hrest].
      rewrite bind_unfold. rewrite (block_unfold w args None p Hp).
      rewrite (direct_loop w args p b c _ Ht Hl Hw).
      2:{ intros i Hi. unfold range in Hi. apply in_seq in Hi. lia. }
      cbn [events outcome fst snd].
      destruct (playwright_exit w p) as [[] | e]; cbn [events fst snd ret app];
        now rewrite ?app_nil_r. }
    split; [exact Hmain | ].
    rewrite Hmain, !count_calls_app.
    rewrite (count_calls_flat_map is_launch), (count_calls_flat_map is_new_page).
    + unfold range. rewrite length_seq.
      split; now destruct (playwright_exit w p).
    + intros i. apply direct_iteration_new_pages.
    + intros i. apply direct_iteration_launches.
Qed.

(** The scenario of the specification: [query = "test"], three iterations. *)
Lemma C8_direct_connection_without_tor_and_proxies_witness :
  (forall i, select_proxy (build_proxies Samples.args_test) i = ret None) /\
  (forall w p b c,
     playwright_enter w = Ok p ->
     sessions_return_or_time_out w Samples.args_test p b c ->
     events (main w Samples.args_test) =
     [Called sync_playwright_enter]
       ++ flat_map (fun i => direct_iteration_events w Samples.args_test p (b i) (c i) i)
                   [0; 1; 2]
       ++ events (do_call (sync_playwright_exit p) (playwright_exit w p)) /\
     count_calls is_launch (events (main w Samples.args_test)) = 3 /\
     count_calls is_new_page (events (main w Samples.args_test)) = 3).
Proof.
  apply (C8_direct_connection_without_tor_and_proxies Samples.args_test);
    reflexivity.
Defined.

(** ** Closing the control channel (lines 158-161) *)

Lemma open_controller_no_calls (w : World) (args : Args) (f : call -> bool) :
  (forall x, f (Controller_from_port x) = false) ->
  (forall c x, f (Controller_authenticate c x) = false) ->
  (forall s, f (print s) = false) ->
  no_calls f (events (open_controller w args)).
Proof.
  intros H1 H2 H3. unfold no_calls, open_controller, py_print. inv_all; cbn; auto.
Qed.

Lemma block_never_closes_controller (w : World) (args : Args) controller :
  no_calls is_controller_close (events (playwright_block w args controller)).
Proof.
  unfold no_calls, playwright_block, with_sync_playwright, loop, iteration,
    select_proxy, py_mod, py_getitem, renew, session, new_browser, run_search,
    dismiss_consent, query_selector, py_print, py_sleep.
  inv_all.
Qed.

Lemma clean_up_closes_once (w : World) (c : Controller) :
  count_calls is_controller_close (events (clean_up w (Some c))) = 1 /\
  exists closing rest,
    events (clean_up w (Some c)) = closing :: rest /\
    call_of closing = Controller_close c.
Proof.
  unfold clean_up. destruct (controller_close w c) as [[] | e]; cbn;
    (split; [reflexivity | eexists _, _; split; reflexivity]).
Qed.

Lemma block_raises_with_iteration (w : World) (args : Args) controller p k e :
  reaches w args controller p k ->
  outcome (iteration w args controller (build_proxies args) p k) = Raise e ->
  exists e', outcome (playwright_block w args controller) = Raise e'.
Proof.
  intros (_ & Hp & Hk & Hl) Hit.
  destruct (loop_reaches w args controller p k Hk Hl) as (post & _ & Hraise).
  rewrite (block_unfold w args controller p Hp). cbn [outcome snd].
  rewrite (Hraise e Hit).
  destruct (playwright_exit w p); eauto.
Qed.

(** C1, as the code has it.  The controller is closed by the statement that
    follows the Playwright block, not by a clean-up handler.  In a run whose
    control channel was opened, [close()] is therefore called exactly once
    when the block ends without an exception (timeouts of the Search Task are
    caught inside the loop), as the first call after the block; when an
    iteration raises an exception that is not caught, [main] ends with an
    exception and [close()] is not called. *)
Theorem C1_controller_closed_after_completed_loop
    (w : World) (args : Args) (c : Controller) :
  outcome (open_controller w args) = Ok (Some c) ->
  count_calls is_controller_close (events (main w args)) =
    (if returns (outcome (playwright_block w args (Some c))) then 1 else 0) /\
  (returns (outcome (playwright_block w args (Some c))) = true ->
   exists closing rest,
     events (main w args) =
     events (open_controller w args)
       ++ events (playwright_block w args (Some c))
       ++ closing :: rest /\
     call_of closing = Controller_close c) /\
  (forall p k e,
     reaches w args (Some c) p k ->
     outcome (iteration w args (Some c) (build_proxies args) p k) = Raise e ->
     count_calls is_controller_close (events (main w args)) = 0 /\
     exists e', outcome (main w args) = Raise e').
Proof.
  intros Ho.
  pose proof (open_controller_no_calls w args is_controller_close
                (fun _ => eq_refl) (fun _ _ => eq_refl) (fun _ => eq_refl)) as Hopen.
  pose proof (block_never_closes_controller w args (Some c)) as Hblock.
  destruct (clean_up_closes_once w c) as (Hone & closing & rest & Hev & Hcall).
  assert (Hmain : main w args =
                  match outcome (playwright_block w args (Some c)) with
                  | Ok _ =>
                      (events (open_controller w args)
                         ++ events (playwright_block w args (Some c))
                         ++ events (clean_up w (Some c)),
                       outcome (clean_up w (Some c)))
                  | Raise e =>
                      (events (open_controller w args)
                         ++ events (playwright_block w args (Some c)),
                       Raise e)
                  end).
  { rewrite main_unfold, (bind_ok _ _ (Some c)) by assumption.
    rewrite bind_unfold.
    destruct (outcome (playwright_block w args (Some c))); reflexivity. }
  assert (Hcount :
            count_calls is_controller_close (events (main w args)) =
            (if returns (outcome (playwright_block w args (Some c))) then 1 else 0)).
  { rewrite Hmain.
    destruct (outcome (playwright_block w args (Some c))) as [u | e];
      cbn [events fst returns]; rewrite !count_calls_app;
      rewrite (no_calls_count _ _ Hopen), (no_calls_count _ _ Hblock);
      [now rewrite Hone | reflexivity]. }
  split; [exact Hcount | ]. split.
  - intros Hret. exists closing, rest. split; [ | exact Hcall].
    rewrite Hmain.
    destruct (outcome (playwright_block w args (Some c))); [ | discriminate].
    cbn [events fst]. now rewrite Hev.
  - intros p k e Hr Hit.
    destruct (block_raises_with_iteration w args (Some c) p k e Hr Hit) as [e' He'].
    split.
    + rewrite Hcount, He'. reflexivity.
    + exists e'. rewrite Hmain, He'. reflexivity.
Qed.

Lemma C1_controller_closed_after_completed_loop_witness :
  count_calls is_controller_close (events (main Samples.calm Samples.args_tor)) =
    (if returns (outcome (playwright_block Samples.calm Samples.args_tor
                            (Some TorController))) then 1 else 0) /\
  (returns (outcome (playwright_block Samples.calm Samples.args_tor
                       (Some TorController))) = true ->
   exists closing rest,
     events (main Samples.calm Samples.args_tor) =
     events (open_controller Samples.calm Samples.args_tor)
       ++ events (playwright_block Samples.calm Samples.args_tor (Some TorController))
       ++ closing :: rest /\
     call_of closing = Controller_close TorController) /\
  (forall p k e,
     reaches Samples.calm Samples.args_tor (Some TorController) p k ->
     outcome (iteration Samples.calm Samples.args_tor (Some TorController)
                (build_proxies Samples.args_tor) p k) = Raise e ->
     count_calls is_controller_close (events (main Samples.calm Samples.args_tor)) = 0 /\
     exists e', outcome (main Samples.calm Samples.args_tor) = Raise e').
Proof.
  apply C1_controller_closed_after_completed_loop. reflexivity.
Defined.

(** C1 as the specification states it does not hold: here the control
    channel is opened, the Search Task of the first iteration raises an error
    that is not a timeout, and [main] ends with that error without a call to
    [close()]. *)
Lemma C1_close_is_skipped_on_uncaught_error :
  outcome (open_controller Samples.proxy_down Samples.args_tor)
    = Ok (Some TorController) /\
  outcome (run_search Samples.proxy_down (ContextHandle 0) (query Samples.args_tor))
    = Raise (OtherException "net::ERR_PROXY_CONNECTION_FAILED") /\
  outcome (main Samples.proxy_down Samples.args_tor)
    = Raise (OtherException "net::ERR_PROXY_CONNECTION_FAILED") /\
  count_calls is_controller_close (events (main Samples.proxy_down Samples.args_tor)) = 0 /\
  count_calls is_controller_close (events (main Samples.proxy_down Samples.args_tor)) <> 1.
Proof.
  repeat split. discriminate.
Qed.

(** ** Runs with no iteration *)

Lemma range_nonpositive (n : Z) : (n <= 0)%Z -> range n = [].
Proof. intros H. unfold range. now replace (Z.to_nat n) with 0 by lia. Qed.

(** C10.  [--iterations] takes any integer.  With [iterations <= 0] the loop
    runs over an empty range: when the control channel (if asked for) opens
    and Playwright starts and stops, [main] returns normally after starting
    and stopping Playwright and closing the controller it may have opened, and
    no browser is launched and no search is run. *)
Theorem C10_nonpositive_iterations_run_nothing
    (w : World) (args : Args) (controller : option Controller) (p : Playwright) :
  (iterations args <= 0)%Z ->
  outcome (open_controller w args) = Ok controller ->
  playwright_enter w = Ok p ->
  playwright_exit w p = Ok tt ->
  (forall c, controller = Some c -> controller_close w c = Ok tt) ->
  loop w args controller p (range (iterations args)) = ret tt /\
  main w args =
  (events (open_controller w args)
     ++ [Called sync_playwright_enter; Called (sync_playwright_exit p)]
     ++ match controller with
        | Some c => [Called (Controller_close c);
                     Called (print "✔ Tor controller closed")]
        | None => []
        end,
   Ok tt) /\
  count_calls is_launch (events (main w args)) = 0 /\
  count_calls is_new_page (events (main w args)) = 0 /\
  count_calls is_controller_close (events (main w args)) =
    match controller with Some _ => 1 | None => 0 end.
Proof.
  intros Hn Ho Hp Hx Hc.
  assert (Hloop : loop w args controller p (range (iterations args)) = ret tt)
    by now rewrite range_nonpositive.
  assert (Hmain : main w args =
    (events (open_controller w args)
       ++ [Called sync_playwright_enter; Called (sync_playwright_exit p)]
       ++ match controller with
          | Some c => [Called (Controller_close c);
                       Called (print "✔ Tor controller closed")]
          | None => []
          end,
     Ok tt)).
  { rewrite main_unfold, (bind_ok _ _ controller) by assumption.
    rewrite (block_unfold w args controller p Hp), Hloop, Hx.
    cbn [events outcome fst snd ret do_call app bind].
    destruct controller as [c | ]; cbn [clean_up].
    - rewrite (Hc c eq_refl). reflexivity.
    - reflexivity. }
  split; [exact Hloop | ]. split; [exact Hmain | ].
  rewrite Hmain. cbn [events fst]. rewrite !count_calls_app.
  rewrite (no_calls_count is_launch)
    by (apply open_controller_no_calls; reflexivity).
  rewrite (no_calls_count is_new_page)
    by (apply open_controller_no_calls; reflexivity).
  rewrite (no_calls_count is_controller_close)
    by (apply open_controller_no_calls; reflexivity).
  now destruct controller.
Qed.

Lemma C10_nonpositive_iterations_run_nothing_witness :
  loop Samples.calm
       {| query := "test"; iterations := -3; proxy_list := []; tor := true |}
       (Some TorController) PlaywrightDriver (range (-3)) = ret tt /\
  main Samples.calm
       {| query := "test"; iterations := -3; proxy_list := []; tor := true |} =
  ([Called (Controller_from_port 9051);
    Called (Controller_authenticate TorController "secret");
    Called (print "✔ Tor control port authenticated");
    Called sync_playwright_enter;
    Called (sync_playwright_exit PlaywrightDriver);
    Called (Controller_close TorController);
    Called (print "✔ Tor controller closed")],
   Ok tt) /\
  count_calls is_launch
    (events (main Samples.calm
       {| query := "test"; iterations := -3; proxy_list := []; tor := true |})) = 0 /\
  count_calls is_new_page
    (events (main Samples.calm
       {| query := "test"; iterations := -3; proxy_list := []; tor := true |})) = 0 /\
  count_calls is_controller_close
    (events (main Samples.calm
       {| query := "test"; iterations := -3; proxy_list := []; tor := true |})) = 1.
Proof.
  apply (C10_nonpositive_iterations_run_nothing Samples.calm
           {| query := "test"; iterations := -3; proxy_list := []; tor := true |}
           (Some TorController) PlaywrightDriver);
    [cbn; lia | reflexivity | reflexivity | reflexivity | reflexivity].
Defined.

(** * Further properties of the script *)

(** ** The consent banner (lines 62-68) *)

Lemma try_except_pass_filters {A} (body : M A) catches (a : A) e :
  outcome (try_except body catches (fun _ => ret a)) = Raise e ->
  outcome body = Raise e /\ catches e = false /\
  events (try_except body catches (fun _ => ret a)) = events body.
Proof.
  rewrite try_except_unfold.
  destruct (outcome body) as [x | e0] eqn:E.
  - rewrite E. discriminate.
  - destruct (catches e0) eqn:Ec; cbn [outcome snd ret].
    + discriminate.
    + rewrite E. intros H. injection H as <-. auto.
Qed.

Lemma fails_last_ret {A} (a : A) : fails_last (ret a).
Proof. intros e H. discriminate. Qed.

Lemma fails_last_do_call {A} c (r : result A) : fails_last (do_call c r).
Proof.
  intros e H. destruct r as [a | e0]; cbn in H; [discriminate | ].
  injection H as <-. now exists [], c.
Qed.

Lemma fails_last_bind {A B} (m : M A) (k : A -> M B) :
  fails_last m -> (forall a, fails_last (k a)) -> fails_last (bind m k).
Proof.
  intros Hm Hk e. rewrite bind_unfold.
  destruct (outcome m) as [a | e0] eqn:E; cbn [events outcome fst snd]; intros H.
  - destruct (Hk a e H) as (pre & c & Hev).
    exists (events m ++ pre), c. now rewrite Hev, app_assoc.
  - injection H as <-. now apply Hm.
Qed.

Lemma fails_last_try_except_pass {A} (body : M A) catches (a : A) :
  fails_last body -> fails_last (try_except body catches (fun _ => ret a)).
Proof.
  intros Hb e H.
  destruct (try_except_pass_filters body catches a e H) as (Ho & _ & Hev).
  rewrite Hev. now apply Hb.
Qed.

Lemma dismiss_consent_fails_last (w : World) pg : fails_last (dismiss_consent w pg).
Proof.
  unfold dismiss_consent. apply fails_last_try_except_pass.
  apply fails_last_bind; [apply fails_last_do_call | ].
  intros [el | ]; [apply fails_last_do_call | apply fails_last_ret].
Qed.

(** X1.  The consent step swallows timeouts and nothing else.  When the query
    for the button or the click on it raises [e], the step returns if [e] is
    a [PlaywrightTimeoutError] and raises [e] otherwise; when neither raises
    (the button is absent, or it is clicked) the step returns.  So what the
    step raises is never a timeout, and it is the exception of the last call
    the step made. *)
Theorem consent_step_only_swallows_timeouts (w : World) (pg : Page) :
  (forall e,
     matching w pg "button[aria-label='Reject all']" = Raise e \/
     (exists el els,
        matching w pg "button[aria-label='Reject all']" = Ok (el :: els) /\
        click w el = Raise e) ->
     outcome (dismiss_consent w pg) =
     if is_PlaywrightTimeoutError e then Ok tt else Raise e) /\
  (matching w pg "button[aria-label='Reject all']" = Ok [] \/
   (exists el els,
      matching w pg "button[aria-label='Reject all']" = Ok (el :: els) /\
      click w el = Ok tt) ->
   outcome (dismiss_consent w pg) = Ok tt) /\
  (forall e,
     outcome (dismiss_consent w pg) = Raise e ->
     is_PlaywrightTimeoutError e = false /\
     exists pre c, events (dismiss_consent w pg) = pre ++ [Failed c e]).
Proof.
  split; [ | split].
  - intros e H. unfold dismiss_consent, query_selector.
    destruct H as [Hq | (el & els & Hq & Hc)]; rewrite Hq; cbn; [ | rewrite Hc; cbn];
      now destruct (is_PlaywrightTimeoutError e).
  - intros H. unfold dismiss_consent, query_selector.
    destruct H as [Hq | (el & els & Hq & Hc)]; rewrite Hq; cbn; [ | rewrite Hc];
      reflexivity.
  - intros e H. split.
    + unfold dismiss_consent in H.
      now destruct (try_except_pass_filters _ _ _ _ H) as (_ & Hc & _).
    + now apply dismiss_consent_fails_last.
Qed.

(** A click that fails with an error that is not a timeout comes out. *)
Lemma consent_step_only_swallows_timeouts_witness :
  outcome (dismiss_consent Samples.consent_detached (PageHandle 0)) =
  Raise (OtherException "Element is not attached").
Proof.
  destruct (consent_step_only_swallows_timeouts Samples.consent_detached (PageHandle 0))
    as (H & _ & _).
  apply (H (OtherException "Element is not attached")).
  right. exists (Element 9), []. split; reflexivity.
Defined.

(** X2.  A timeout while looking for the consent button, or while clicking
    it, does not stop the search: the consent step returns and the next call
    of [run_search] fills the query into the search box. *)
Theorem consent_timeout_does_not_stop_search
    (w : World) (ctx : BrowserContext) (q : string) (pg : Page) (m : string) :
  new_page w ctx = Ok pg ->
  goto w pg "https://www.google.com" 45000%Z = Ok tt ->
  (matching w pg "button[aria-label='Reject all']" = Raise (PlaywrightTimeoutError m) \/
   exists el els,
     matching w pg "button[aria-label='Reject all']" = Ok (el :: els) /\
     click w el = Raise (PlaywrightTimeoutError m)) ->
  outcome (dismiss_consent w pg) = Ok tt /\
  (exists pre c,
     events (dismiss_consent w pg) = pre ++ [Failed c (PlaywrightTimeoutError m)]) /\
  exists filling rest,
    events (run_search w ctx q) =
    [Called (Context_new_page ctx);
     Called (Page_goto pg "https://www.google.com" 45000%Z)]
      ++ events (dismiss_consent w pg) ++ filling :: rest /\
    call_of filling = Page_fill pg "input[name='q']" q.
Proof.
  intros Hnp Hg Hto.
  assert (Hd : outcome (dismiss_consent w pg) = Ok tt /\
               exists pre c,
                 events (dismiss_consent w pg)
                 = pre ++ [Failed c (PlaywrightTimeoutError m)]).
  { unfold dismiss_consent, query_selector.
    destruct Hto as [Hq | (el & els & Hq & Hc)]; rewrite Hq; cbn; [ | rewrite Hc; cbn].
    - split; [reflexivity | ]. now exists [], (Page_query_selector pg "button[aria-label='Reject all']").
    - split; [reflexivity | ].
      now exists [Called (Page_query_selector pg "button[aria-label='Reject all']")],
                 (Element_click el). }
  destruct Hd as [Hok Hlast]. split; [exact Hok | ]. split; [exact Hlast | ].
  unfold run_search. rewrite Hnp. cbn [do_call].
  rewrite (bind_ok _ _ pg) by reflexivity.
  rewrite Hg. cbn [do_call]. rewrite (bind_ok _ _ tt) by reflexivity.
  rewrite (bind_ok _ _ tt) by assumption. cbn [events fst].
  match goal with
  | |- context [events (bind (do_call ?c ?r) ?k)] =>
      destruct (events_bind_prefix (do_call c r) k) as [rest Hrest];
      rewrite Hrest, do_call_events
  end.
  eexists _, rest. split.
  - cbn [app]. reflexivity.
  - now destruct (fill w pg "input[name='q']" q).
Qed.

Lemma consent_timeout_does_not_stop_search_witness :
  outcome (dismiss_consent Samples.consent_times_out (PageHandle 0)) = Ok tt /\
  (exists pre c,
     events (dismiss_consent Samples.consent_times_out (PageHandle 0)) =
     pre ++ [Failed c (PlaywrightTimeoutError "Timeout 30000ms exceeded.")]) /\
  exists filling rest,
    events (run_search Samples.consent_times_out (ContextHandle 0) "test") =
    [Called (Context_new_page (ContextHandle 0));
     Called (Page_goto (PageHandle 0) "https://www.google.com" 45000%Z)]
      ++ events (dismiss_consent Samples.consent_times_out (PageHandle 0))
      ++ filling :: rest /\
    call_of filling = Page_fill (PageHandle 0) "input[name='q']" "test".
Proof.
  apply consent_timeout_does_not_stop_search;
    [reflexivity | reflexivity | left; reflexivity].
Defined.

(** ** How [run_search] ends (lines 55-83) *)

Lemma returns_last_bind {A B} ev (m : M A) (k : A -> M B) :
  (forall a, returns_last ev (k a)) -> returns_last ev (bind m k).
Proof.
  intros Hk b. rewrite bind_unfold.
  destruct (outcome m) as [a | e]; cbn [events outcome fst snd]; intros H.
  - destruct (Hk a b H) as [pre Hev].
    exists (events m ++ pre). now rewrite Hev, app_assoc.
  - discriminate.
Qed.

Lemma run_search_returns_last (w : World) ctx q :
  returns_last (Called (time_sleep 3)) (run_search w ctx q).
Proof.
  unfold run_search.
  repeat (apply returns_last_bind; intros ?).
  intros u _. now exists [].
Qed.

Lemma run_search_fails_last (w : World) ctx q : fails_last (run_search w ctx q).
Proof.
  unfold run_search, query_selector, py_print, py_sleep.
  repeat first
    [ apply fails_last_do_call
    | apply dismiss_consent_fails_last
    | apply fails_last_bind; [ | intros ? ]
    | match goal with
      | |- fails_last (match ?x with _ => _ end) => destruct x
      end ].
Qed.

(** X3.  [run_search] ends in one of two ways.  When it returns, its last
    call is the pause of 3 s.  When it raises, the exception is that of the
    last call it made: nothing is called after the failure, and a failure
    that was swallowed (a timeout of the consent step) is never the one that
    comes out. *)
Theorem run_search_ends_with_pause_or_failure
    (w : World) (ctx : BrowserContext) (q : string) :
  match outcome (run_search w ctx q) with
  | Ok _ => exists pre, events (run_search w ctx q) = pre ++ [Called (time_sleep 3)]
  | Raise e => exists pre c, events (run_search w ctx q) = pre ++ [Failed c e]
  end.
Proof.
  destruct (outcome (run_search w ctx q)) as [u | e] eqn:E.
  - exact (run_search_returns_last w ctx q u E).
  - exact (run_search_fails_last w ctx q e E).
Qed.

(** ** Acquiring and releasing a browser (lines 40-52) *)

Lemma run_search_no_calls (w : World) ctx q (f : call -> bool) :
  (forall c, is_search_call c = true -> f c = false) ->
  no_calls f (events (run_search w ctx q)).
Proof.
  intros H.
  unfold no_calls, run_search, dismiss_consent, query_selector, py_print, py_sleep.
  inv_all; cbn [call_of]; apply H; reflexivity.
Qed.

(** X4.  Which of the two releases the [with] statement of line 153 makes.
    [context.close()] is called once when the browser was launched and gave a
    context, and not otherwise.  [browser.close()] is called once when, on
    top of that, [context.close()] returned: a browser whose context could
    not be created, or whose context failed to close, is left open. *)
Theorem session_releases_what_it_acquired
    (w : World) (n : nat) (p : Playwright) (proxy : option string) (q : string) :
  count_calls is_context_close
    (events (new_browser w n p proxy (fun ctx => run_search w ctx q))) =
    match launch w n p (proxy_server proxy) with
    | Ok b => if returns (new_context w b) then 1 else 0
    | Raise _ => 0
    end /\
  count_calls is_browser_close
    (events (new_browser w n p proxy (fun ctx => run_search w ctx q))) =
    match launch w n p (proxy_server proxy) with
    | Ok b =>
        match new_context w b with
        | Ok ctx => if returns (context_close w ctx) then 1 else 0
        | Raise _ => 0
        end
    | Raise _ => 0
    end.
Proof.
  destruct (launch w n p (proxy_server proxy)) as [b | e] eqn:El.
  2:{ unfold new_browser. cbv zeta. rewrite El. split; reflexivity. }
  destruct (new_context w b) as [ctx | e] eqn:Ec.
  2:{ unfold new_browser. cbv zeta. rewrite El. cbn [do_call].
      rewrite (bind_ok _ _ b) by reflexivity. rewrite Ec. split; reflexivity. }
  rewrite (new_browser_unfold w n p proxy _ b ctx El Ec).
  cbn [events fst returns]. rewrite !count_calls_app.
  rewrite (no_calls_count is_context_close (events (run_search w ctx q)))
    by (apply run_search_no_calls; intros c; now destruct c).
  rewrite (no_calls_count is_browser_close (events (run_search w ctx q)))
    by (apply run_search_no_calls; intros c; now destruct c).
  destruct (context_close w ctx) as [[] | e]; [ | split; reflexivity].
  cbn [do_call]. rewrite (bind_ok _ _ tt) by reflexivity.
  cbn [events fst returns].
  destruct (browser_close w b); split; reflexivity.
Qed.

(** X5.  The outcome of [with new_browser(p, proxy) as ctx: body]: the first
    failure among launch and [new_context]; otherwise the failure of
    [context.close()] or else of [browser.close()], which replaces the
    outcome of the body whether the body returned or raised; otherwise the
    outcome of the body. *)
Theorem new_browser_outcome {A}
    (w : World) (n : nat) (p : Playwright) (proxy : option string)
    (body : BrowserContext -> M A) :
  outcome (new_browser w n p proxy body) =
  match launch w n p (proxy_server proxy) with
  | Raise e => Raise e
  | Ok b =>
      match new_context w b with
      | Raise e => Raise e
      | Ok ctx =>
          match context_close w ctx with
          | Raise e => Raise e
          | Ok _ =>
              match browser_close w b with
              | Raise e => Raise e
              | Ok _ => outcome (body ctx)
              end
          end
      end
  end.
Proof.
  destruct (launch w n p (proxy_server proxy)) as [b | e] eqn:El.
  2:{ unfold new_browser. cbv zeta. rewrite El. reflexivity. }
  destruct (new_context w b) as [ctx | e] eqn:Ec.
  2:{ unfold new_browser. cbv zeta. rewrite El. cbn [do_call].
      rewrite (bind_ok _ _ b) by reflexivity. rewrite Ec. reflexivity. }
  rewrite (new_browser_unfold w n p proxy body b ctx El Ec).
  cbn [outcome snd].
  destruct (context_close w ctx) as [[] | e]; [ | reflexivity].
  cbn [do_call]. rewrite (bind_ok _ _ tt) by reflexivity.
  cbn [snd]. now destruct (browser_close w b) as [[] | e].
Qed.

(** A context that cannot be created: nothing is closed. *)
Lemma session_releases_what_it_acquired_witness :
  count_calls is_context_close
    (events (new_browser Samples.context_refused 0 PlaywrightDriver None
               (fun ctx => run_search Samples.context_refused ctx "test"))) = 0 /\
  count_calls is_browser_close
    (events (new_browser Samples.context_refused 0 PlaywrightDriver None
               (fun ctx => run_search Samples.context_refused ctx "test"))) = 0.
Proof.
  exact (session_releases_what_it_acquired Samples.context_refused 0
           PlaywrightDriver None "test").
Defined.

(** A context that cannot be closed: its error replaces the normal return
    of the body. *)
Lemma new_browser_outcome_witness :
  outcome (new_browser Samples.close_refused 0 PlaywrightDriver None
             (fun _ => ret tt))
  = Raise (OtherException "Target closed").
Proof.
  exact (new_browser_outcome Samples.close_refused 0 PlaywrightDriver None
           (fun _ => ret tt)).
Defined.

Example browser_left_open_when_context_refused :
  new_browser Samples.context_refused 0 PlaywrightDriver None
    (fun ctx => run_search Samples.context_refused ctx "test") =
  ([Called (chromium_launch PlaywrightDriver true None);
    Failed (Browser_new_context (BrowserHandle 0)) (OtherException "Target closed")],
   Raise (OtherException "Target closed")).
Proof. reflexivity. Qed.

Example browser_left_open_when_close_refused :
  events (new_browser Samples.close_refused 0 PlaywrightDriver None
            (fun _ => ret tt)) =
  [Called (chromium_launch PlaywrightDriver true None);
   Called (Browser_new_context (BrowserHandle 0));
   Failed (Context_close (ContextHandle 0)) (OtherException "Target closed")] /\
  outcome (new_browser Samples.close_refused 0 PlaywrightDriver None
             (fun _ => ret tt)) = Raise (OtherException "Target closed").
Proof. split; reflexivity. Qed.

(** ** The events of a whole run *)

Lemma block_events (w : World) (args : Args) controller :
  events (playwright_block w args controller) =
  match playwright_enter w with
  | Ok p =>
      Called sync_playwright_enter
        :: events (loop w args controller p (range (iterations args)))
        ++ events (do_call (sync_playwright_exit p) (playwright_exit w p))
  | Raise e => [Failed sync_playwright_enter e]
  end.
Proof.
  destruct (playwright_enter w) as [p | e] eqn:E.
  - now rewrite (block_unfold w args controller p E).
  - unfold playwright_block, with_sync_playwright. now rewrite E.
Qed.

Lemma main_events (w : World) (args : Args) :
  events (main w args) =
  events (open_controller w args) ++
  match outcome (open_controller w args) with
  | Ok controller =>
      events (playwright_block w args controller) ++
      (if returns (outcome (playwright_block w args controller))
       then events (clean_up w controller) else [])
  | Raise _ => []
  end.
Proof.
  rewrite main_unfold, bind_unfold.
  destruct (outcome (open_controller w args)) as [c | e]; cbn [events fst].
  - f_equal. rewrite bind_unfold.
    destruct (outcome (playwright_block w args c)); cbn [events fst returns];
      [reflexivity | now rewrite app_nil_r].
  - now rewrite app_nil_r.
Qed.

Lemma clean_up_no_calls (w : World) controller (f : call -> bool) :
  (forall c, f (Controller_close c) = false) ->
  (forall s, f (print s) = false) ->
  no_calls f (events (clean_up w controller)).
Proof. intros H1 H2. unfold no_calls, clean_up, py_print. inv_all; cbn; auto. Qed.

(** The calls of a class that only the loop can make. *)
Lemma main_count_in_loop (w : World) (args : Args) (f : call -> bool) :
  (forall c, is_browser_call c = false -> is_signal c = false -> f c = false) ->
  f sync_playwright_enter = false ->
  (forall p, f (sync_playwright_exit p) = false) ->
  count_calls f (events (main w args)) =
  match outcome (open_controller w args), playwright_enter w with
  | Ok controller, Ok p =>
      count_calls f (events (loop w args controller p (range (iterations args))))
  | _, _ => 0
  end.
Proof.
  intros Hf He Hx. rewrite main_events, count_calls_app.
  rewrite (no_calls_count f (events (open_controller w args)))
    by (apply open_controller_no_calls; intros; now apply Hf).
  destruct (outcome (open_controller w args)) as [c | e]; [ | reflexivity].
  rewrite count_calls_app.
  assert (Hc : count_calls f (events (clean_up w c)) = 0)
    by (apply no_calls_count, clean_up_no_calls; intros; now apply Hf).
  assert (Hn : count_calls f [] = 0) by reflexivity.
  match goal with
  | |- context [if ?b then _ else _] => destruct b
  end; [rewrite Hc | rewrite Hn]; rewrite block_events;
    destruct (playwright_enter w) as [p | e].
  all: try (unfold count_calls; cbn; now rewrite He).
  - change (Called sync_playwright_enter :: ?t) with ([Called sync_playwright_enter] ++ t).
    rewrite !count_calls_app.
    assert (H1 : count_calls f [Called sync_playwright_enter] = 0)
      by (unfold count_calls; cbn; now rewrite He).
    assert (H2 : count_calls f
                   (events (do_call (sync_playwright_exit p) (playwright_exit w p))) = 0)
      by (unfold count_calls; destruct (playwright_exit w p); cbn; now rewrite Hx).
    rewrite H1, H2. lia.
  - change (Called sync_playwright_enter :: ?t) with ([Called sync_playwright_enter] ++ t).
    rewrite !count_calls_app.
    assert (H1 : count_calls f [Called sync_playwright_enter] = 0)
      by (unfold count_calls; cbn; now rewrite He).
    assert (H2 : count_calls f
                   (events (do_call (sync_playwright_exit p) (playwright_exit w p))) = 0)
      by (unfold count_calls; destruct (playwright_exit w p); cbn; now rewrite Hx).
    rewrite H1, H2. lia.
Qed.

Lemma loop_count_le (w : World) (args : Args) controller p (f : call -> bool) xs :
  (forall i, In i xs ->
     count_calls f (events (iteration w args controller (build_proxies args) p i)) <= 1) ->
  count_calls f (events (loop w args controller p xs)) <= List.length xs.
Proof.
  induction xs as [ | x xs IH]; intros H.
  - cbn. unfold count_calls. cbn. lia.
  - rewrite loop_cons, bind_unfold.
    pose proof (H x (or_introl eq_refl)) as Hx.
    assert (Hxs : count_calls f (events (loop w args controller p xs)) <= List.length xs)
      by (apply IH; intros i Hi; apply H; now right).
    destruct (outcome (iteration w args controller (build_proxies args) p x));
      cbn [events fst List.length]; rewrite ?count_calls_app; lia.
Qed.

Lemma loop_count_exact (w : World) (args : Args) controller p (f : call -> bool)
    (k : nat) xs :
  (forall i, In i xs ->
     count_calls f (events (iteration w args controller (build_proxies args) p i)) = k) ->
  outcome (loop w args controller p xs) = Ok tt ->
  count_calls f (events (loop w args controller p xs)) = k * List.length xs.
Proof.
  induction xs as [ | x xs IH]; intros H Hok.
  - cbn. unfold count_calls. cbn. lia.
  - rewrite loop_cons, bind_unfold in *.
    pose proof (H x (or_introl eq_refl)) as Hx.
    destruct (outcome (iteration w args controller (build_proxies args) p x));
      cbn [events outcome fst snd List.length] in *; [ | discriminate].
    rewrite count_calls_app, Hx, IH; [lia | | assumption].
    intros i Hi. apply H. now right.
Qed.

Lemma in_range (n : Z) (i : nat) : In i (range n) -> (Z.of_nat i < n)%Z.
Proof. unfold range. intros H. apply in_seq in H. lia. Qed.

(** ** What one iteration calls *)

Lemma loop_no_calls (w : World) (args : Args) controller p xs (f : call -> bool) :
  (forall c, is_iteration_call c = true -> f c = false) ->
  no_calls f (events (loop w args controller p xs)).
Proof.
  intros H.
  unfold no_calls, loop, iteration, select_proxy, py_mod, py_getitem, renew,
    session, new_browser, run_search, dismiss_consent, query_selector,
    py_print, py_sleep.
  inv_all; cbn [call_of]; apply H; reflexivity.
Qed.

Lemma new_browser_one_launch (w : World) n p proxy q :
  count_calls is_launch
    (events (new_browser w n p proxy (fun ctx => run_search w ctx q))) = 1.
Proof.
  destruct (launch w n p (proxy_server proxy)) as [b | e] eqn:El.
  2:{ unfold new_browser. cbv zeta. rewrite El. reflexivity. }
  destruct (new_context w b) as [ctx | e] eqn:Ec.
  2:{ unfold new_browser. cbv zeta. rewrite El. cbn [do_call].
      rewrite (bind_ok _ _ b) by reflexivity. rewrite Ec. reflexivity. }
  rewrite (new_browser_unfold w n p proxy _ b ctx El Ec).
  cbn [events fst]. rewrite !count_calls_app.
  rewrite (no_calls_count _ _ (run_search_no_launch w ctx q)).
  rewrite (no_calls_count is_launch
             (events (do_call (Context_close ctx) (context_close w ctx) ;;
                      do_call (Browser_close b) (browser_close w b)))).
  - reflexivity.
  - unfold no_calls. inv_all.
Qed.

Lemma new_browser_new_pages (w : World) n p proxy q :
  count_calls is_new_page
    (events (new_browser w n p proxy (fun ctx => run_search w ctx q))) <= 1.
Proof.
  destruct (launch w n p (proxy_server proxy)) as [b | e] eqn:El.
  2:{ unfold new_browser. cbv zeta. rewrite El. cbn. lia. }
  destruct (new_context w b) as [ctx | e] eqn:Ec.
  2:{ unfold new_browser. cbv zeta. rewrite El. cbn [do_call].
      rewrite (bind_ok _ _ b) by reflexivity. rewrite Ec. cbn. lia. }
  rewrite (new_browser_unfold w n p proxy _ b ctx El Ec).
  cbn [events fst]. rewrite !count_calls_app, run_search_one_new_page.
  rewrite (no_calls_count is_new_page
             (events (do_call (Context_close ctx) (context_close w ctx) ;;
                      do_call (Browser_close b) (browser_close w b)))).
  - cbn. lia.
  - unfold no_calls. inv_all.
Qed.

Lemma session_count (w : World) (args : Args) p i proxy (f : call -> bool) :
  (forall s, f (print s) = false) ->
  count_calls f (events (session w args p i proxy)) =
  count_calls f
    (events (new_browser w i p proxy (fun ctx => run_search w ctx (query args)))).
Proof.
  intros Hp. unfold session. rewrite try_except_unfold.
  destruct (outcome (new_browser w i p proxy _)) as [u | e]; [reflexivity | ].
  destruct (is_PlaywrightTimeoutError e); [ | reflexivity].
  cbn [events fst py_print do_call]. rewrite count_calls_app.
  unfold count_calls at 2. cbn. rewrite Hp. cbn. lia.
Qed.

Lemma iteration_count (w : World) (args : Args) controller p i (f : call -> bool) :
  (Z.of_nat i < iterations args)%Z ->
  (forall s, f (print s) = false) ->
  count_calls f (events (iteration w args controller (build_proxies args) p i)) =
  count_calls f (events (renew w controller i)) +
  count_calls f
    (events (new_browser w i p (proxy_at args i)
               (fun ctx => run_search w ctx (query args)))).
Proof.
  intros Hi Hp. rewrite iteration_unfold by assumption. cbn [events fst].
  rewrite !count_calls_app, session_count by assumption.
  unfold count_calls at 2. cbn. rewrite Hp. cbn. lia.
Qed.

Lemma renew_signals (w : World) controller i :
  count_calls is_signal (events (renew w controller i)) =
  match controller with Some _ => 1 | None => 0 end.
Proof.
  unfold renew. destruct controller as [c | ]; [ | reflexivity].
  now destruct (signal w i c) as [[] | e].
Qed.

(** ** Timeouts never leave the loop *)

Lemma try_except_filters {A} (body : M A) catches handler e :
  (forall e0, returns (outcome (handler e0)) = true) ->
  outcome (try_except body catches handler) = Raise e ->
  outcome body = Raise e /\ catches e = false.
Proof.
  intros Hh. rewrite try_except_unfold.
  destruct (outcome body) as [x | e0] eqn:E.
  - rewrite E. discriminate.
  - destruct (catches e0) eqn:Ec; cbn [outcome snd].
    + specialize (Hh e0). destruct (outcome (handler e0)); discriminate.
    + rewrite E. intros H. injection H as <-. auto.
Qed.

Lemma select_proxy_raises (proxies : list (option string)) i e :
  outcome (select_proxy proxies i) = Raise e -> is_PlaywrightTimeoutError e = false.
Proof.
  unfold select_proxy, py_mod, py_getitem.
  destruct (Nat.eqb (List.length proxies) 0).
  - cbn. intros H. now injection H as <-.
  - rewrite bind_ret.
    destruct (nth_error proxies (i mod List.length proxies)); cbn; intros H;
      [discriminate | now injection H as <-].
Qed.

Lemma iteration_raises (w : World) (args : Args) controller proxies p i e :
  outcome (iteration w args controller proxies p i) = Raise e ->
  is_PlaywrightTimeoutError e = false.
Proof.
  unfold iteration. rewrite bind_unfold.
  destruct (outcome (select_proxy proxies i)) as [proxy | e0] eqn:Es;
    cbn [outcome snd].
  2:{ intros H. injection H as <-. now apply select_proxy_raises in Es. }
  rewrite (bind_ok _ _ tt) by apply renew_outcome. cbn [outcome snd].
  unfold py_print at 1. cbn [do_call]. rewrite (bind_ok _ _ tt) by reflexivity.
  cbn [outcome snd]. unfold session. intros H.
  now apply try_except_filters in H.
Qed.

(** X6.  No timeout leaves the loop.  The handler of line 155 surrounds the
    whole [with] statement, so a [PlaywrightTimeoutError] raised while the
    browser is launched or released is caught like one raised by the search:
    when the loop ends with an exception, it is not a timeout. *)
Theorem loop_never_propagates_a_timeout
    (w : World) (args : Args) controller (p : Playwright) (xs : list nat) (e : exn) :
  outcome (loop w args controller p xs) = Raise e ->
  is_PlaywrightTimeoutError e = false.
Proof.
  induction xs as [ | x xs IH]; [discriminate | ].
  rewrite loop_cons, bind_unfold.
  destruct (outcome (iteration w args controller (build_proxies args) p x))
    as [u | e0] eqn:E; cbn [outcome snd].
  - exact IH.
  - intros H. injection H as <-. now apply iteration_raises in E.
Qed.

Lemma loop_never_propagates_a_timeout_witness :
  is_PlaywrightTimeoutError (OtherException "net::ERR_PROXY_CONNECTION_FAILED") = false.
Proof.
  apply (loop_never_propagates_a_timeout Samples.proxy_down Samples.args_test
           None PlaywrightDriver [0; 1; 2]).
  reflexivity.
Defined.

(** ** The proxy lookup of line 140 *)

(** X7.  Indexing an empty list of proxies would divide by zero, but the list
    the script builds is never empty in an iteration that runs: for every
    index of the loop the lookup returns, and what it returns is an entry of
    the list. *)
Theorem proxy_lookup_cannot_fail (args : Args) (i : nat) :
  In i (range (iterations args)) ->
  select_proxy [] i = raise (ZeroDivisionError "integer modulo by zero") /\
  exists proxy,
    select_proxy (build_proxies args) i = ret proxy /\
    In proxy (build_proxies args).
Proof.
  intros Hi. apply in_range in Hi. split; [reflexivity | ].
  exists (proxy_at args i). split; [now apply select_proxy_at | ].
  unfold proxy_at. apply nth_In. apply Nat.mod_upper_bound.
  pose proof (build_proxies_nonempty args i Hi) as Hne.
  destruct (build_proxies args); cbn; congruence.
Qed.

Lemma proxy_lookup_cannot_fail_witness :
  select_proxy [] 4 = raise (ZeroDivisionError "integer modulo by zero") /\
  exists proxy,
    select_proxy (build_proxies Samples.args_AB) 4 = ret proxy /\
    In proxy (build_proxies Samples.args_AB).
Proof.
  apply proxy_lookup_cannot_fail. unfold range. apply in_seq. cbn. lia.
Defined.

(** ** The control channel over a whole run *)

Lemma block_no_calls (w : World) (args : Args) controller (f : call -> bool) :
  f sync_playwright_enter = false ->
  (forall p, f (sync_playwright_exit p) = false) ->
  (forall c, is_iteration_call c = true -> f c = false) ->
  no_calls f (events (playwright_block w args controller)).
Proof.
  intros He Hx Hf. unfold no_calls. rewrite block_events.
  destruct (playwright_enter w) as [p | e]; [ | repeat constructor; exact He].
  constructor; [exact He | ]. apply Forall_app. split.
  - now apply loop_no_calls.
  - destruct (playwright_exit w p); repeat constructor; apply Hx.
Qed.

(** X8.  Without [--tor] the script never touches the control channel: no
    connection, no authentication, no renewal signal, no close, in any
    environment and for any number of iterations. *)
Theorem no_tor_no_control_channel (w : World) (args : Args) :
  tor args = false ->
  no_calls is_control_call (events (main w args)).
Proof.
  intros Ht. unfold no_calls. rewrite main_events.
  unfold open_controller. rewrite Ht. cbn [ret events outcome fst snd app].
  apply Forall_app. split.
  - rewrite block_events.
    destruct (playwright_enter w) as [p | e]; [ | repeat constructor].
    constructor; [reflexivity | ]. apply Forall_app. split.
    + unfold loop, iteration, select_proxy, py_mod, py_getitem, renew,
        session, new_browser, run_search, dismiss_consent, query_selector,
        py_print, py_sleep.
      inv_all.
    + destruct (playwright_exit w p); repeat constructor.
  - destruct (returns _); constructor.
Qed.

Lemma no_tor_no_control_channel_witness :
  no_calls is_control_call (events (main Samples.calm Samples.args_AB)).
Proof.
  apply no_tor_no_control_channel. reflexivity.
Defined.

(** X9.  The control connection is opened at most once per run, whatever the
    number of iterations: [Controller.from_port] is called once when [--tor]
    is given, stem is installed and the password is set, and never
    otherwise; [authenticate] is called once when, on top of that, the
    connection was made. *)
Theorem control_connection_is_opened_once (w : World) (args : Args) :
  count_calls is_from_port (events (main w args)) =
    (if open_attempted w args then 1 else 0) /\
  count_calls is_authenticate (events (main w args)) =
    (if open_attempted w args && returns (from_port w 9051%Z) then 1 else 0).
Proof.
  assert (Hrest : forall f,
            (forall c, is_open_call c = false -> f c = false) ->
            count_calls f (events (main w args)) =
            count_calls f (events (open_controller w args))).
  { intros f Hf. rewrite main_events, count_calls_app.
    destruct (outcome (open_controller w args)) as [c | e]; [ | cbn; lia].
    rewrite count_calls_app.
    rewrite (no_calls_count f (events (playwright_block w args c)))
      by (apply block_no_calls; intros; apply Hf;
          try reflexivity; now destruct c0).
    destruct (returns _); [ | cbn; lia].
    rewrite (no_calls_count f (events (clean_up w c)))
      by (apply clean_up_no_calls; intros; now apply Hf).
    lia. }
  rewrite !Hrest by (intros c; now destruct c).
  unfold open_attempted, open_controller.
  destruct (tor args); [ | split; reflexivity].
  destruct (stem_imported w); [ | split; reflexivity].
  destruct (truthy_str (getenv w "TOR_CONTROL_PASSWD")); [ | split; reflexivity].
  cbn [andb negb].
  destruct (from_port w 9051%Z) as [c | e]; [ | split; reflexivity].
  cbn [returns do_call].
  destruct (authenticate w c (the_str (getenv w "TOR_CONTROL_PASSWD")))
    as [[] | e] eqn:Ea; cbn; rewrite Ea; split; reflexivity.
Qed.

(** ** How many browsers, pages and signals *)

Lemma iteration_one_launch (w : World) (args : Args) controller p i :
  (Z.of_nat i < iterations args)%Z ->
  count_calls is_launch
    (events (iteration w args controller (build_proxies args) p i)) = 1.
Proof.
  intros Hi. rewrite iteration_count by (assumption || reflexivity).
  rewrite new_browser_one_launch.
  rewrite (no_calls_count is_launch (events (renew w controller i))); [reflexivity | ].
  unfold no_calls, renew, py_print, py_sleep. inv_all.
Qed.

Lemma iteration_new_pages (w : World) (args : Args) controller p i :
  (Z.of_nat i < iterations args)%Z ->
  count_calls is_new_page
    (events (iteration w args controller (build_proxies args) p i)) <= 1.
Proof.
  intros Hi. rewrite iteration_count by (assumption || reflexivity).
  rewrite (no_calls_count is_new_page (events (renew w controller i))).
  - apply new_browser_new_pages.
  - unfold no_calls, renew, py_print, py_sleep. inv_all.
Qed.

Lemma iteration_signals (w : World) (args : Args) controller p i :
  (Z.of_nat i < iterations args)%Z ->
  count_calls is_signal
    (events (iteration w args controller (build_proxies args) p i)) =
  match controller with Some _ => 1 | None => 0 end.
Proof.
  intros Hi. rewrite iteration_count by (assumption || reflexivity).
  rewrite renew_signals.
  rewrite (no_calls_count is_signal
             (events (new_browser w i p (proxy_at args i)
                        (fun ctx => run_search w ctx (query args))))); [lia | ].
  unfold no_calls, new_browser, run_search, dismiss_consent, query_selector,
    py_print, py_sleep.
  inv_all.
Qed.

(** X10.  A run never does more than its iteration count allows: at most
    [iterations] browsers are launched, at most [iterations] pages are
    opened and at most [iterations] renewal signals are sent, in any
    environment (and none at all when [iterations <= 0]). *)
Theorem run_is_bounded_by_iterations (w : World) (args : Args) :
  count_calls is_launch (events (main w args)) <= Z.to_nat (iterations args) /\
  count_calls is_new_page (events (main w args)) <= Z.to_nat (iterations args) /\
  count_calls is_signal (events (main w args)) <= Z.to_nat (iterations args).
Proof.
  assert (Hlen : List.length (range (iterations args)) = Z.to_nat (iterations args))
    by apply length_seq.
  repeat split.
  - rewrite main_count_in_loop by (try reflexivity; intros c; now destruct c).
    destruct (outcome (open_controller w args)); [ | lia].
    destruct (playwright_enter w); [ | lia].
    rewrite <- Hlen. apply loop_count_le. intros i Hi.
    rewrite iteration_one_launch by now apply in_range. lia.
  - rewrite main_count_in_loop by (try reflexivity; intros c; now destruct c).
    destruct (outcome (open_controller w args)); [ | lia].
    destruct (playwright_enter w); [ | lia].
    rewrite <- Hlen. apply loop_count_le. intros i Hi.
    apply iteration_new_pages. now apply in_range.
  - rewrite main_count_in_loop by (try reflexivity; intros c; now destruct c).
    destruct (outcome (open_controller w args)) as [c | e]; [ | lia].
    destruct (playwright_enter w); [ | lia].
    rewrite <- Hlen. apply loop_count_le. intros i Hi.
    rewrite iteration_signals by now apply in_range. destruct c; lia.
Qed.

(** X11.  When the loop completes (every iteration returned, timeouts
    included), exactly one browser was launched per iteration and, with Tor,
    exactly one renewal signal was sent per iteration, whether the signals
    were accepted or not; without Tor no signal was sent. *)
Theorem completed_run_counts
    (w : World) (args : Args) (controller : option Controller) (p : Playwright) :
  outcome (open_controller w args) = Ok controller ->
  playwright_enter w = Ok p ->
  outcome (loop w args controller p (range (iterations args))) = Ok tt ->
  count_calls is_launch (events (main w args)) = Z.to_nat (iterations args) /\
  count_calls is_signal (events (main w args)) =
    match controller with
    | Some _ => Z.to_nat (iterations args)
    | None => 0
    end.
Proof.
  intros Ho Hp Hl.
  assert (Hlen : List.length (range (iterations args)) = Z.to_nat (iterations args))
    by apply length_seq.
  split.
  - rewrite main_count_in_loop by (try reflexivity; intros c; now destruct c).
    rewrite Ho, Hp.
    rewrite (loop_count_exact w args controller p is_launch 1); [lia | | assumption].
    intros i Hi. apply iteration_one_launch. now apply in_range.
  - rewrite main_count_in_loop by (try reflexivity; intros c; now destruct c).
    rewrite Ho, Hp.
    rewrite (loop_count_exact w args controller p is_signal
               (match controller with Some _ => 1 | None => 0 end));
      [destruct controller; lia | | assumption].
    intros i Hi. apply iteration_signals. now apply in_range.
Qed.

Lemma completed_run_counts_witness :
  count_calls is_launch (events (main Samples.renewal_refused Samples.args_tor)) = 2 /\
  count_calls is_signal (events (main Samples.renewal_refused Samples.args_tor)) = 2.
Proof.
  apply (completed_run_counts Samples.renewal_refused Samples.args_tor
           (Some TorController) PlaywrightDriver); reflexivity.
Defined.

(** ** Stopping Playwright *)

(** X12.  Playwright is stopped exactly once in every run that started it,
    whatever happens in the loop, and never in a run that did not start it:
    once the control channel phase is over, the number of exits of the
    [with sync_playwright()] block is 1 when its entry returned and 0 when
    it raised. *)
Theorem playwright_is_stopped_once
    (w : World) (args : Args) (controller : option Controller) :
  outcome (open_controller w args) = Ok controller ->
  count_calls is_playwright_exit (events (main w args)) =
    (if returns (playwright_enter w) then 1 else 0).
Proof.
  intros Ho. rewrite main_events, Ho, !count_calls_app.
  rewrite (no_calls_count is_playwright_exit (events (open_controller w args)))
    by (apply open_controller_no_calls; reflexivity).
  assert (Hc : count_calls is_playwright_exit (events (clean_up w controller)) = 0)
    by (apply no_calls_count, clean_up_no_calls; reflexivity).
  assert (Hn : count_calls is_playwright_exit [] = 0) by reflexivity.
  match goal with
  | |- context [if ?b then events _ else _] => destruct b
  end; [rewrite Hc | rewrite Hn]; rewrite block_events;
    destruct (playwright_enter w) as [p | e]; cbn [returns]; try reflexivity.
  all: change (Called sync_playwright_enter :: ?t)
         with ([Called sync_playwright_enter] ++ t);
    rewrite !count_calls_app;
    rewrite (no_calls_count is_playwright_exit (events (loop _ _ _ _ _)))
      by (apply loop_no_calls; intros c; now destruct c);
    now destruct (playwright_exit w p).
Qed.

(** Stopped even when an iteration ends the run with an error. *)
Lemma playwright_is_stopped_once_witness :
  count_calls is_playwright_exit
    (events (main Samples.proxy_down Samples.args_tor)) = 1.
Proof.
  apply (playwright_is_stopped_once Samples.proxy_down Samples.args_tor
           (Some TorController)).
  reflexivity.
Defined.

(** X13.  When an iteration ends with an exception that is not caught, the
    only call the run still makes is the exit of the Playwright block: no
    later iteration starts and nothing is cleaned up after the block. *)
Theorem uncaught_error_ends_the_run
    (w : World) (args : Args) controller (p : Playwright) (k : nat) (e : exn) :
  reaches w args controller p k ->
  outcome (iteration w args controller (build_proxies args) p k) = Raise e ->
  events (main w args) =
  events (open_controller w args)
    ++ [Called sync_playwright_enter]
    ++ events (loop w args controller p (seq 0 k))
    ++ events (iteration w args controller (build_proxies args) p k)
    ++ events (do_call (sync_playwright_exit p) (playwright_exit w p)).
Proof.
  intros (Ho & Hp & Hk & Hl) Hit.
  assert (Hloop : loop w args controller p (range (iterations args)) =
                  (events (loop w args controller p (seq 0 k))
                     ++ events (iteration w args controller (build_proxies args) p k),
                   Raise e)).
  { rewrite (range_split _ _ Hk), loop_app.
    rewrite (bind_ok _ _ tt) by assumption. cbn [events outcome fst snd].
    rewrite loop_cons, (bind_raise _ _ e) by assumption. reflexivity. }
  rewrite main_events, Ho.
  rewrite (block_unfold w args controller p Hp), Hloop.
  cbn [events outcome fst snd].
  replace (returns match playwright_exit w p with
                   | Ok _ => @Raise unit e
                   | Raise e0 => Raise e0
                   end) with false by (now destruct (playwright_exit w p)).
  rewrite app_nil_r, <- !app_assoc. reflexivity.
Qed.

Lemma uncaught_error_ends_the_run_witness :
  events (main Samples.proxy_down Samples.args_tor) =
  events (open_controller Samples.proxy_down Samples.args_tor)
    ++ [Called sync_playwright_enter]
    ++ events (loop Samples.proxy_down Samples.args_tor (Some TorController)
                 PlaywrightDriver (seq 0 0))
    ++ events (iteration Samples.proxy_down Samples.args_tor (Some TorController)
                 (build_proxies Samples.args_tor) PlaywrightDriver 0)
    ++ events (do_call (sync_playwright_exit PlaywrightDriver)
                 (playwright_exit Samples.proxy_down PlaywrightDriver)).
Proof.
  apply (uncaught_error_ends_the_run Samples.proxy_down Samples.args_tor
           (Some TorController) PlaywrightDriver 0
           (OtherException "net::ERR_PROXY_CONNECTION_FAILED")).
  - repeat split.
  - reflexivity.
Defined.

(** ** What the calls are given *)

(** X14.  The script only ever talks to one site and only ever types the
    query: in every run every navigation goes to https://www.google.com with
    a timeout of 45 s, every fill puts the query of the command line into
    the search box, every key press is Enter in that box, every wait is for
    an [h3] with 20 s, every query is for the consent button or an [h3],
    every pause is of 3 s or 5 s, every launch is headless, and the control
    port is 9051. *)
Theorem calls_have_the_fixed_arguments (w : World) (args : Args) :
  Forall (fun ev => fixed_arguments args (call_of ev)) (events (main w args)).
Proof.
  unfold main, open_controller, with_sync_playwright, iteration, select_proxy,
    py_mod, py_getitem, renew, session, new_browser, run_search, dismiss_consent,
    query_selector, clean_up, py_print, py_sleep.
  inv_all; cbn; auto.
Qed.

Lemma select_proxy_in (proxies : list (option string)) i proxy :
  outcome (select_proxy proxies i) = Ok proxy -> In proxy proxies.
Proof.
  unfold select_proxy, py_mod, py_getitem.
  destruct (Nat.eqb (List.length proxies) 0); [discriminate | ].
  rewrite bind_ret.
  destruct (nth_error proxies (i mod List.length proxies)) eqn:E; cbn; intros H;
    [ | discriminate].
  injection H as <-. eapply nth_error_In, E.
Qed.

Ltac not_a_launch :=
  let Hcall := fresh "Hcall" in intros ? ? ? Hcall; discriminate Hcall.

(** X15.  Every browser of a run is launched with the proxy server of an
    entry of the list built at lines 131-135 (the entry itself, or no server
    when the entry is [None] or empty); with [--tor] that is always the local
    Tor SOCKS address, in any environment. *)
Theorem launches_use_the_planned_proxies (w : World) (args : Args) :
  Forall (fun ev =>
            forall p headless server,
              call_of ev = chromium_launch p headless server ->
              In server (map proxy_server (build_proxies args)) /\
              (tor args = true -> server = Some "socks5://127.0.0.1:9050"))
         (events (main w args)).
Proof.
  unfold main, with_sync_playwright.
  apply inv_bind;
    [unfold open_controller, py_print; inv_all; not_a_launch | ].
  intros controller _. cbv zeta.
  apply inv_bind;
    [ | intros _ _; unfold clean_up, py_print; inv_all; not_a_launch].
  apply inv_bind; [inv_all; not_a_launch | intros p _].
  apply inv_try_finally; [ | inv_all; not_a_launch].
  apply inv_for_each. intros i _. unfold iteration.
  apply inv_bind;
    [unfold select_proxy, py_mod, py_getitem; inv_all | intros proxy Hsel].
  apply select_proxy_in in Hsel.
  apply inv_bind;
    [unfold renew, py_print, py_sleep; inv_all; not_a_launch
    | intros _ _].
  apply inv_bind; [inv_all; not_a_launch | intros _ _].
  assert (Hlaunch : forall ev,
            call_of ev = chromium_launch p true (proxy_server proxy) ->
            forall p' headless server,
              call_of ev = chromium_launch p' headless server ->
              In server (map proxy_server (build_proxies args)) /\
              (tor args = true -> server = Some "socks5://127.0.0.1:9050")).
  { intros ev Hev p' h s H. rewrite Hev in H. inversion H. subst. split.
    - now apply in_map.
    - intros Ht. unfold build_proxies, list_mul in Hsel. rewrite Ht in Hsel.
      apply repeat_spec in Hsel. now subst proxy. }
  unfold session, new_browser, run_search, dismiss_consent, query_selector,
    py_print, py_sleep.
  inv_all; try (not_a_launch); now apply Hlaunch.
Qed.

Lemma launches_use_the_planned_proxies_witness :
  Forall (fun ev =>
            forall p headless server,
              call_of ev = chromium_launch p headless server ->
              In server (map proxy_server (build_proxies Samples.args_tor)) /\
              (tor Samples.args_tor = true -> server = Some "socks5://127.0.0.1:9050"))
         (events (main Samples.slow_start Samples.args_tor)).
Proof.
  apply launches_use_the_planned_proxies.
Defined.

(** ** What is clicked *)

Ltac world_case :=
  match goal with
  | |- context [goto ?w ?a ?b ?c] => destruct (goto w a b c) as [[] | ?]
  | |- context [matching ?w ?a ?b] => destruct (matching w a b) as [[ | ? ?] | ?]
  | |- context [click ?w ?a] => destruct (click w a) as [[] | ?]
  | |- context [fill ?w ?a ?b ?c] => destruct (fill w a b c) as [[] | ?]
  | |- context [press ?w ?a ?b ?c] => destruct (press w a b c) as [[] | ?]
  | |- context [wait_for_selector ?w ?a ?b ?c] =>
      destruct (wait_for_selector w a b c) as [[] | ?]
  | |- context [is_PlaywrightTimeoutError ?e] => is_var e; destruct e
  end.

(** X16.  [run_search] clicks nothing but the first match of the consent
    button and the first match of [h3], as the page reports them: every
    element clicked is one of those two. *)
Theorem only_first_matches_are_clicked
    (w : World) (ctx : BrowserContext) (q : string) (pg : Page) :
  new_page w ctx = Ok pg ->
  Forall (fun el => In el (first_matches w pg))
         (clicked (events (run_search w ctx q))).
Proof.
  intros Hnp.
  unfold run_search, dismiss_consent, query_selector, first_matches, py_print,
    py_sleep.
  rewrite Hnp.
  repeat (cbn; world_case); cbn;
    repeat match goal with |- Forall _ _ => constructor end; cbn; auto.
Qed.

Lemma only_first_matches_are_clicked_witness :
  Forall (fun el => In el (first_matches Samples.consent_detached (PageHandle 0)))
         (clicked (events (run_search Samples.consent_detached (ContextHandle 0) "test"))).
Proof.
  apply only_first_matches_are_clicked. reflexivity.
Defined.

(** * The proxy of each iteration, in the run *)

Lemma launch_servers_app (t1 t2 : trace) :
  launch_servers (t1 ++ t2) = launch_servers t1 ++ launch_servers t2.
Proof. apply flat_map_app. Qed.

Lemma launch_servers_none (t : trace) :
  no_calls is_launch t -> launch_servers t = [].
Proof.
  unfold no_calls. induction 1 as [ | ev t Hev _ IH]; [reflexivity | ].
  cbn [launch_servers flat_map]. fold (launch_servers t). rewrite IH.
  destruct (call_of ev); try reflexivity. discriminate Hev.
Qed.

Lemma new_browser_launch_servers (w : World) n p proxy q :
  launch_servers
    (events (new_browser w n p proxy (fun ctx => run_search w ctx q))) =
  [proxy_server proxy].
Proof.
  destruct (launch w n p (proxy_server proxy)) as [b | e] eqn:El.
  2:{ unfold new_browser. cbv zeta. rewrite El. reflexivity. }
  destruct (new_context w b) as [ctx | e] eqn:Ec.
  2:{ unfold new_browser. cbv zeta. rewrite El. cbn [do_call].
      rewrite (bind_ok _ _ b) by reflexivity. rewrite Ec. reflexivity. }
  rewrite (new_browser_unfold w n p proxy _ b ctx El Ec).
  cbn [events fst]. rewrite !launch_servers_app.
  rewrite (launch_servers_none _ (run_search_no_launch w ctx q)).
  rewrite (launch_servers_none
             (events (do_call (Context_close ctx) (context_close w ctx) ;;
                      do_call (Browser_close b) (browser_close w b)))).
  - reflexivity.
  - unfold no_calls. inv_all.
Qed.

Lemma iteration_launch_servers (w : World) (args : Args) controller p i :
  (Z.of_nat i < iterations args)%Z ->
  launch_servers (events (iteration w args controller (build_proxies args) p i)) =
  [proxy_server (proxy_at args i)].
Proof.
  intros Hi. rewrite iteration_unfold by assumption. cbn [events fst].
  rewrite !launch_servers_app.
  rewrite (launch_servers_none (events (renew w controller i)))
    by (unfold no_calls, renew, py_print, py_sleep; inv_all).
  unfold session. rewrite try_except_unfold.
  destruct (outcome (new_browser w i p (proxy_at args i) _)) as [u | e];
    [now rewrite new_browser_launch_servers | ].
  destruct (is_PlaywrightTimeoutError e);
    [ | now rewrite new_browser_launch_servers].
  cbn [events fst]. rewrite launch_servers_app, new_browser_launch_servers.
  reflexivity.
Qed.

(** The launches of the loop are those of its first [k] iterations, in
    order; of all of them when the loop returns. *)
Lemma loop_launch_servers (w : World) (args : Args) controller p xs :
  (forall i, In i xs -> (Z.of_nat i < iterations args)%Z) ->
  exists k,
    k <= List.length xs /\
    launch_servers (events (loop w args controller p xs)) =
    map (fun i => proxy_server (proxy_at args i)) (firstn k xs) /\
    (outcome (loop w args controller p xs) = Ok tt -> k = List.length xs).
Proof.
  induction xs as [ | x xs IH]; intros Hxs.
  - exists 0. repeat split. cbn. lia.
  - destruct IH as (k & Hk & Hev & Hall); [intros i Hi; apply Hxs; now right | ].
    pose proof (iteration_launch_servers w args controller p x
                  (Hxs x (or_introl eq_refl))) as Hx.
    rewrite loop_cons, bind_unfold.
    destruct (outcome (iteration w args controller (build_proxies args) p x))
      as [u | e]; cbn [events outcome fst snd].
    + exists (S k). split; [cbn; lia | ]. split.
      * rewrite launch_servers_app, Hx, Hev. reflexivity.
      * intros Hok. cbn. f_equal. now apply Hall.
    + exists 1. split; [cbn; lia | ]. split; [now rewrite Hx | discriminate].
Qed.

Lemma main_launch_servers (w : World) (args : Args) :
  exists k,
    k <= Z.to_nat (iterations args) /\
    launch_servers (events (main w args)) =
    map (fun i => proxy_server (proxy_at args i))
        (firstn k (range (iterations args))) /\
    (forall controller p,
       outcome (open_controller w args) = Ok controller ->
       playwright_enter w = Ok p ->
       outcome (loop w args controller p (range (iterations args))) = Ok tt ->
       k = Z.to_nat (iterations args)).
Proof.
  assert (Hlen : List.length (range (iterations args)) = Z.to_nat (iterations args))
    by apply length_seq.
  rewrite main_events, launch_servers_app.
  rewrite (launch_servers_none (events (open_controller w args)))
    by (apply open_controller_no_calls; reflexivity).
  destruct (outcome (open_controller w args)) as [c | e].
  2:{ exists 0. split; [lia | ]. split; [reflexivity | discriminate]. }
  rewrite launch_servers_app.
  assert (Hc : launch_servers (events (clean_up w c)) = [])
    by (apply launch_servers_none, clean_up_no_calls; reflexivity).
  assert (Hn : launch_servers [] = []) by reflexivity.
  match goal with
  | |- context [if ?b then events _ else _] => destruct b
  end; [rewrite Hc | rewrite Hn]; rewrite block_events;
    destruct (playwright_enter w) as [p | e].
  2, 4: exists 0; split; [lia | ]; split; [reflexivity | intros ? ? _ H; discriminate H].
  all: destruct (loop_launch_servers w args c p (range (iterations args)))
         as (k & Hk & Hev & Hall); [intros i; apply in_range | ];
    exists k; split; [lia | ]; split;
    [ change (Called sync_playwright_enter :: ?t)
        with ([Called sync_playwright_enter] ++ t);
      rewrite !launch_servers_app, Hev;
      rewrite (launch_servers_none
                 (events (do_call (sync_playwright_exit p) (playwright_exit w p))))
        by (unfold no_calls; inv_all);
      cbn [launch_servers flat_map call_of app]; now rewrite !app_nil_r
    | intros c' p' Hc' _ Hl; injection Hc' as <-; destruct p, p';
      rewrite <- Hlen; now apply Hall ].
Qed.

(** Where iteration [i] prints its header and launches its browser. *)
Lemma main_iteration_selection (w : World) (args : Args) controller p i :
  reaches w args controller p i ->
  exists acquire post,
    events (main w args) =
    (events (open_controller w args) ++ [Called sync_playwright_enter]
       ++ events (loop w args controller p (seq 0 i))
       ++ events (renew w controller i))
      ++ [Called (print (banner args i (proxy_at args i))); acquire] ++ post /\
    call_of acquire = chromium_launch p true (proxy_server (proxy_at args i)).
Proof.
  intros Hr. destruct (main_reaches _ _ _ _ _ Hr) as [post Hmain].
  destruct Hr as (_ & _ & Hi & _).
  rewrite iteration_unfold in Hmain by assumption. cbn [events fst] in Hmain.
  destruct (session_starts_with_launch w args p i (proxy_at args i))
    as (ev & rest & Hev & Hcall).
  rewrite Hev in Hmain.
  exists ev, (rest ++ post). split; [ | exact Hcall].
  rewrite Hmain. repeat rewrite <- app_assoc. reflexivity.
Qed.

(** C2.  Without [--tor] and with a non-empty proxy list, iteration [i] of
    the loop uses the proxy at position [i mod len(proxy_list)] of the list,
    which is reused cyclically when there are more iterations than proxies.
    The lookup of line 140 returns that entry; an iteration that the run
    reaches prints its header with that entry and then launches its browser
    with it; and the launches of a run are, in order, those of its first
    iterations with these entries: of all the iterations when the loop
    completes. *)
Theorem C2_proxy_list_is_cycled (args : Args) :
  tor args = false ->
  proxy_list args <> [] ->
  (1 <= iterations args)%Z ->
  (forall i, (Z.of_nat i < iterations args)%Z ->
     exists url,
       nth_error (proxy_list args) (i mod List.length (proxy_list args)) = Some url /\
       select_proxy (build_proxies args) i = ret (Some url)) /\
  plan args =
  map (fun i => Ok (nth_error (proxy_list args)
                              (i mod List.length (proxy_list args))))
      (range (iterations args)) /\
  (forall w controller p i,
     reaches w args controller p i ->
     exists acquire post,
       events (main w args) =
       (events (open_controller w args) ++ [Called sync_playwright_enter]
          ++ events (loop w args controller p (seq 0 i))
          ++ events (renew w controller i))
         ++ [Called (print (banner args i
                       (nth_error (proxy_list args)
                                  (i mod List.length (proxy_list args)))));
             acquire]
         ++ post /\
       call_of acquire =
       chromium_launch p true
         (proxy_server (nth_error (proxy_list args)
                                  (i mod List.length (proxy_list args))))) /\
  (forall w,
     exists k,
       k <= Z.to_nat (iterations args) /\
       launch_servers (events (main w args)) =
       map (fun i => proxy_server (nth_error (proxy_list args)
                                             (i mod List.length (proxy_list args))))
           (firstn k (range (iterations args))) /\
       (forall controller p,
          outcome (open_controller w args) = Ok controller ->
          playwright_enter w = Ok p ->
          outcome (loop w args controller p (range (iterations args))) = Ok tt ->
          k = Z.to_nat (iterations args))).
Proof.
  intros Ht Hne Hn. split; [ | split; [ | split]].
  - intros i Hi. rewrite select_proxy_at by assumption.
    rewrite proxy_at_list by assumption.
    destruct (nth_error _ _) as [url | ] eqn:E; [now exists url | ].
    apply nth_error_None in E.
    assert (i mod List.length (proxy_list args) < List.length (proxy_list args)).
    { apply Nat.mod_upper_bound. destruct (proxy_list args); cbn; congruence. }
    lia.
  - rewrite plan_eq. apply map_ext. intros i.
    now rewrite proxy_at_list.
  - intros w controller p i Hr.
    destruct (main_iteration_selection w args controller p i Hr)
      as (acquire & post & Hev & Hcall).
    rewrite (proxy_at_list args i Ht Hne) in Hev, Hcall.
    now exists acquire, post.
  - intros w. destruct (main_launch_servers w args) as (k & Hk & Hev & Hall).
    exists k. split; [exact Hk | ]. split; [ | exact Hall].
    rewrite Hev. apply map_ext. intros i. now rewrite proxy_at_list.
Qed.

(** The example of the specification: two proxies, five iterations.  The
    selections are A, B, A, B, A, and so are the proxies of the five launches
    of a run in which every call returns. *)
Lemma C2_proxy_list_is_cycled_witness :
  plan Samples.args_AB =
  [Ok (Some "A"); Ok (Some "B"); Ok (Some "A"); Ok (Some "B"); Ok (Some "A")] /\
  launch_servers (events (main Samples.calm Samples.args_AB)) =
  [Some "A"; Some "B"; Some "A"; Some "B"; Some "A"].
Proof.
  destruct (C2_proxy_list_is_cycled Samples.args_AB) as (_ & Hplan & _ & Hrun);
    [reflexivity | discriminate | cbn; lia | ].
  split; [exact Hplan | ].
  destruct (Hrun Samples.calm) as (k & _ & Hev & Hall).
  rewrite Hev, (Hall None PlaywrightDriver eq_refl eq_refl eq_refl).
  reflexivity.
Defined.

(** C3.  With [--tor] every iteration uses the local Tor SOCKS address,
    whatever its index and whatever the proxy list holds.  The lookup of
    line 140 returns that address; an iteration that the run reaches prints
    its header with it and then launches its browser with it; and every
    launch of a run is made with it: one launch per iteration when the loop
    completes. *)
Theorem C3_tor_uses_fixed_socks_address (args : Args) :
  tor args = true ->
  (forall i, (Z.of_nat i < iterations args)%Z ->
     select_proxy (build_proxies args) i = ret (Some "socks5://127.0.0.1:9050")) /\
  (forall w controller p i,
     reaches w args controller p i ->
     exists acquire post,
       events (main w args) =
       (events (open_controller w args) ++ [Called sync_playwright_enter]
          ++ events (loop w args controller p (seq 0 i))
          ++ events (renew w controller i))
         ++ [Called (print (banner args i (Some "socks5://127.0.0.1:9050")));
             acquire]
         ++ post /\
       call_of acquire = chromium_launch p true (Some "socks5://127.0.0.1:9050")) /\
  (forall w,
     exists k,
       k <= Z.to_nat (iterations args) /\
       launch_servers (events (main w args)) =
       repeat (Some "socks5://127.0.0.1:9050") k /\
       (forall controller p,
          outcome (open_controller w args) = Ok controller ->
          playwright_enter w = Ok p ->
          outcome (loop w args controller p (range (iterations args))) = Ok tt ->
          k = Z.to_nat (iterations args))).
Proof.
  intros Ht. split; [ | split].
  - intros i Hi. rewrite select_proxy_at by assumption.
    now rewrite proxy_at_tor.
  - intros w controller p i Hr.
    destruct (main_iteration_selection w args controller p i Hr)
      as (acquire & post & Hev & Hcall).
    destruct Hr as (_ & _ & Hi & _).
    rewrite (proxy_at_tor args i Ht Hi) in Hev, Hcall.
    now exists acquire, post.
  - intros w. destruct (main_launch_servers w args) as (k & Hk & Hev & Hall).
    exists k. split; [exact Hk | ]. split; [ | exact Hall].
    rewrite Hev.
    assert (Hlen : List.length (firstn k (range (iterations args))) = k).
    { rewrite length_firstn. unfold range. rewrite length_seq. lia. }
    rewrite <- Hlen at 2. rewrite <- map_const.
    apply map_ext_in. intros i Hi.
    assert (Hin : In i (range (iterations args))).
    { rewrite <- (firstn_skipn k (range (iterations args))).
      apply in_or_app. now left. }
    apply in_range in Hin. now rewrite proxy_at_tor.
Qed.

(** Two iterations over Tor with a proxy list that is ignored: the header
    and the launch of the second iteration, and both launches of the run. *)
Lemma C3_tor_uses_fixed_socks_address_witness :
  select_proxy
    (build_proxies {| query := "q"; iterations := 2;
                      proxy_list := ["http://10.0.0.1:3128"]; tor := true |}) 1
  = ret (Some "socks5://127.0.0.1:9050") /\
  launch_servers
    (events (main Samples.calm
               {| query := "q"; iterations := 2;
                  proxy_list := ["http://10.0.0.1:3128"]; tor := true |}))
  = [Some "socks5://127.0.0.1:9050"; Some "socks5://127.0.0.1:9050"].
Proof.
  destruct (C3_tor_uses_fixed_socks_address
              {| query := "q"; iterations := 2;
                 proxy_list := ["http://10.0.0.1:3128"]; tor := true |} eq_refl)
    as (Hsel & _ & Hrun).
  split; [apply Hsel; cbn; lia | ].
  destruct (Hrun Samples.calm) as (k & _ & Hev & Hall).
  rewrite Hev, (Hall (Some TorController) PlaywrightDriver eq_refl eq_refl eq_refl).
  reflexivity.
Defined.
